(** * Goller: an SQS consumer loop and its per-message job handle

    A shallow embedding of [job.go], of [goller.go] and of the
    configuration of the package ([NewDefaultConfig] and its types).

    - Go pointers that may be nil ([*string]) are [option].
    - Go maps are [gmap]; a nil map reads like the empty map.
    - [int64] values are [Z]. The decrements [secs--] and [tries--] are
      guarded by the code so that they cannot wrap; where a product or a
      conversion can wrap, [int64] is written out.
    - A run-time panic (nil dereference) is the [Panic] outcome; a Go
      [error] result is [option error] with [None] for [nil].
    - The SQS client ([sqsiface.SQSAPI]) is a function from the history of
      what was sent so far and the request to the response; every request
      that is sent is appended to the history.
    - Logging is not modelled, except that the arguments of a log call are
      evaluated (this is where [j.ID()] is called); the timing gauges
      ([sqsJobTimer], [sqsReceiveTimer], [jobHandlerTimer]) are left out. *)

From Stdlib Require Import ZArith Lia Ascii String.
From stdpp Require Import base option list gmap strings pretty.

#[local] Open Scope Z_scope.

(** ** Results of running Go code *)

Inductive outcome (A : Type) : Type :=
| Ret (a : A)
| Panic (v : string).
Arguments Ret {A} a.
Arguments Panic {A} v.

(** The panic value of [*p] for a nil [p]. *)
Definition nilDereference : string :=
  "runtime error: invalid memory address or nil pointer dereference".

(** [*p] *)
Definition deref {A : Type} (p : option A) : outcome A :=
  match p with
  | Some a => Ret a
  | None => Panic nilDereference
  end.

Inductive numErr : Type :=
| ErrSyntax
| ErrRange.

Inductive error : Type :=
| ErrAlreadyHandled
| errorsNew (text : string)
| NumError (Func Num : string) (Err : numErr)
| transportError (text : string).

(** [int64(z)]: the value of [z] wrapped into 64 bits, two's complement. *)
Definition int64 (z : Z) : Z := (z + 2 ^ 63) mod 2 ^ 64 - 2 ^ 63.

(** ** [strconv.ParseInt(s, 10, 64)]

    The function of the Go standard library that [Tries] calls, as its
    source reads for base 10 and 64 bits: an optional sign, then
    [ParseUint] over the bytes with its two overflow tests on [uint64]
    arithmetic, then the range test of [ParseInt]. *)

Module strconv.

Definition maxUint64 : Z := 2 ^ 64 - 1.

(** The digit value of a byte in base 10; letters have a value of 10 or
    more and are refused like any other byte. *)
Definition digit (c : ascii) : option Z :=
  let b := Z.of_N (N_of_ascii c) in
  if (48 <=? b) && (b <=? 57) then Some (b - 48) else None.

(** The loop of [ParseUint] with [base = 10], [bitSize = 64]:
    the result is the value and whether a syntax or range error ended
    the loop. *)
Fixpoint ParseUint_loop (s : string) (n : Z) : Z * option numErr :=
  match s with
  | EmptyString => (n, None)
  | String c rest =>
      match digit c with
      | None => (0, Some ErrSyntax)
      | Some d =>
          let cutoff := maxUint64 / 10 + 1 in
          let maxVal := 2 ^ 64 - 1 in
          if cutoff <=? n then (maxVal, Some ErrRange)
          else
            let n' := (n * 10) mod 2 ^ 64 in
            let n1 := (n' + d) mod 2 ^ 64 in
            if (n1 <? n') || (maxVal <? n1) then (maxVal, Some ErrRange)
            else ParseUint_loop rest n1
      end
  end.

Definition ParseUint (s : string) : Z * option numErr :=
  match s with
  | EmptyString => (0, Some ErrSyntax)
  | _ => ParseUint_loop s 0
  end.

Definition ParseInt (s0 : string) : Z * option error :=
  match s0 with
  | EmptyString => (0, Some (NumError "ParseInt" s0 ErrSyntax))
  | String c rest =>
      let '(neg, s) :=
        if Ascii.eqb c "+" then (false, rest)
        else if Ascii.eqb c "-" then (true, rest)
        else (false, s0) in
      match ParseUint s with
      | (_, Some ErrSyntax) => (0, Some (NumError "ParseInt" s0 ErrSyntax))
      | (un, _) =>
          let cutoff := 2 ^ 63 in
          if negb neg && (cutoff <=? un)
          then (cutoff - 1, Some (NumError "ParseInt" s0 ErrRange))
          else if neg && (cutoff <? un)
          then (- cutoff, Some (NumError "ParseInt" s0 ErrRange))
          else
            let n := int64 un in
            (if neg then int64 (- n) else n, None)
      end
  end.

End strconv.

(** ** The SQS types the code reads *)

Module sqs.

Record MessageAttributeValue : Type := {
  StringValue : option string
}.

Record Message : Type := {
  MessageId : option string;
  Body : option string;
  ReceiptHandle : option string;
  MessageAttributes : gmap string MessageAttributeValue;
  Attributes : gmap string string
}.

Definition MessageSystemAttributeNameApproximateReceiveCount : string :=
  "ApproximateReceiveCount".

Inductive request : Type :=
| DeleteMessage (QueueUrl : string) (ReceiptHandle : option string)
| ChangeMessageVisibility (QueueUrl : string) (ReceiptHandle : option string)
    (VisibilityTimeout : Z)
| ReceiveMessage (QueueUrl : string)
    (MaxNumberOfMessages VisibilityTimeout WaitTimeSeconds : Z).

(** What [req.Send()] returns: the messages of a receive (empty for the
    other requests) and the error. *)
Record response : Type := {
  Messages : list Message;
  Err : option error
}.

End sqs.

(** What the process does that can be seen from outside, in order. *)
Inductive event : Type :=
| Sent (req : sqs.request)
| Slept (d : Z).

(** [sqsiface.SQSAPI] *)
Definition SQSAPI : Type := list event → sqs.request → sqs.response.

(** ** Configuration *)

Record ConsumerConfig : Type := {
  Count : Z;
  RetrievalErrWait : Z;
  RetrievalMaxNumberOfMessages : Z;
  RetrievalVisibilityTimeout : Z;
  RetrievalWaitTimeSeconds : Z;
  RunOnce : bool;
  RunSlowly : Z
}.

Record JobConfig : Type := {
  BackoffCalc : Z → Z;
  MinVisibilityTimeout : Z;
  MaxVisibilityTimeout : Z
}.

Record Config : Type := {
  Consumer : ConsumerConfig;
  Job : JobConfig;
  QueueURL : string
}.

(** [time.Second], [time.Minute] and [time.Hour] in nanoseconds. *)
Definition Second : Z := 1000000000.
Definition Minute : Z := 60 * Second.
Definition Hour : Z := 60 * Minute.

(** [int64(d.Seconds())] for a duration that is a whole number of seconds *)
Definition Seconds (d : Z) : Z := d / Second.

(** ** The job *)

Record sqsJob : Type := {
  cfg : Config;
  handled : bool;
  msg : sqs.Message;
  svc : SQSAPI
}.

Definition NewJob (c : Config) (m : sqs.Message) (s : SQSAPI) : sqsJob :=
  {| cfg := c; handled := false; msg := m; svc := s |}.

Definition Attribute (j : sqsJob) (attr : string) : outcome (string * bool) :=
  match sqs.MessageAttributes (msg j) !! attr with
  | Some a =>
      match deref (sqs.StringValue a) with
      | Ret v => Ret (v, true)
      | Panic p => Panic p
      end
  | None =>
      match sqs.Attributes (msg j) !! attr with
      | Some a => Ret (a, true)
      | None => Ret (""%string, false)
      end
  end.

Definition ID (j : sqsJob) : outcome string :=
  deref (sqs.MessageId (msg j)).

(** [aws.StringValue] *)
Definition aws_StringValue (p : option string) : string :=
  match p with
  | Some v => v
  | None => ""%string
  end.

Definition Body (j : sqsJob) : string * option error :=
  let body := aws_StringValue (sqs.Body (msg j)) in
  if (String.length body =? 0)%nat
  then (""%string, Some (errorsNew "job body is empty"))
  else (body, None).

Definition Tries (j : sqsJob) : outcome (Z * option error) :=
  match Attribute j sqs.MessageSystemAttributeNameApproximateReceiveCount with
  | Panic p => Panic p
  | Ret (count, ok) =>
      if negb ok
      then Ret (0, Some (errorsNew "failed to get recieve count off sqs message"))
      else
        let '(tries, err) := strconv.ParseInt count in
        let tries := if tries >? 0 then tries - 1 else tries in
        Ret (tries, err)
  end.

Definition Handled (j : sqsJob) : bool := handled j.

(** ** Methods that write: a state monad over the job and the history *)

(** A method with receiver [j *sqsJob]: it reads and updates the job and
    the history of events, and returns or panics. The state is kept when
    it panics: what was written before the panic stays written. *)
Definition Go (A : Type) : Type :=
  sqsJob → list event → outcome A * sqsJob * list event.

Definition ret {A : Type} (a : A) : Go A :=
  fun j tr => (Ret a, j, tr).

Definition bind {A B : Type} (m : Go A) (k : A → Go B) : Go B :=
  fun j tr =>
    match m j tr with
    | (Ret a, j', tr') => k a j' tr'
    | (Panic v, j', tr') => (Panic v, j', tr')
    end.

Notation "'do' x <- m ; k" := (bind m (fun x => k))
  (at level 10, x name, m at level 100, k at level 200,
   format "'[v' 'do'  x  <-  m ; '/' k ']'").
Notation "'do_' m ; k" := (bind m (fun _ => k))
  (at level 10, m at level 100, k at level 200,
   format "'[v' 'do_'  m ; '/' k ']'").

(** Evaluate a reading method of the receiver. *)
Definition call {A : Type} (f : sqsJob → outcome A) : Go A :=
  fun j tr => (f j, j, tr).

(** The job after [j.handled = b]. *)
Definition with_handled (b : bool) (j : sqsJob) : sqsJob :=
  {| cfg := cfg j; handled := b; msg := msg j; svc := svc j |}.

(** [j.handled = b] *)
Definition set_handled (b : bool) : Go unit :=
  fun j tr => (Ret tt, with_handled b j, tr).

(** [j.svc.XRequest(input).Send()] *)
Definition Send (req : sqs.request) : Go sqs.response :=
  fun j tr => (Ret (svc j tr req), j, tr ++ [Sent req]).

Definition Delete : Go (option error) :=
  fun j =>
    (if handled j then ret (Some ErrAlreadyHandled)
     else
       do resp <- Send (sqs.DeleteMessage (QueueURL (cfg j))
                          (sqs.ReceiptHandle (msg j)));
       match sqs.Err resp with
       | None =>
           do_ set_handled true;
           do_ call ID;
           ret None
       | Some err => ret (Some err)
       end) j.

Definition Release (secs : Z) : Go (option error) :=
  fun j =>
    (if handled j then ret (Some ErrAlreadyHandled)
     else
       do secs <- (if secs <? MinVisibilityTimeout (Job (cfg j))
                   then do_ call ID; ret (MinVisibilityTimeout (Job (cfg j)))
                   else ret secs);
       do secs <- (if secs >? MaxVisibilityTimeout (Job (cfg j))
                   then do_ call ID; ret (MaxVisibilityTimeout (Job (cfg j)))
                   else ret secs);
       let secs := if secs >=? Seconds (12 * Hour) then secs - 1 else secs in
       do resp <- Send (sqs.ChangeMessageVisibility (QueueURL (cfg j))
                          (sqs.ReceiptHandle (msg j)) secs);
       match sqs.Err resp with
       | None =>
           do_ set_handled true;
           do_ call ID;
           ret None
       | Some err => ret (Some err)
       end) j.

Definition Backoff : Go (option error) :=
  fun j =>
    (do r <- call Tries;
     match r with
     | (_, Some err) => ret (Some err)
     | (tries, None) =>
         do_ call ID;
         let backoff := BackoffCalc (Job (cfg j)) tries in
         Release backoff
     end) j.

(** The three writing methods of the [Job] interface. *)
Inductive terminal : Type :=
| callDelete
| callRelease (secs : Z)
| callBackoff.

Definition run (op : terminal) : Go (option error) :=
  match op with
  | callDelete => Delete
  | callRelease secs => Release secs
  | callBackoff => Backoff
  end.

(** ** The default configuration *)

(** [rand.Int63n(30)] is re-seeded from the clock at every call, so what it
    returns is not a function of the program: [Int63n try] stands for the
    value drawn in the call [BackoffCalc(try)], some number from 0 to 29.

    [math.Pow] and the sum are computed in [float64]. For [|try| < 2^17]
    every intermediate value is an integer below [2^53], where [float64]
    arithmetic is exact, and the model is the code on that range. *)
Definition NewDefaultConfig (Int63n : Z → Z) (queueURL : string)
    (consumerCount : Z) : Config :=
  {| Consumer :=
       {| Count := consumerCount;
          RetrievalErrWait := 30 * Second;
          RetrievalMaxNumberOfMessages := 10;
          RetrievalVisibilityTimeout := Seconds (10 * Minute);
          RetrievalWaitTimeSeconds := 20;
          RunOnce := false;
          RunSlowly := 0 |};
     Job :=
       {| BackoffCalc := fun try =>
            let pow := try ^ 3 in
            let jitter := int64 (int64 (Int63n try * try) + 1) in
            pow + 15 + jitter;
          MinVisibilityTimeout := Seconds (10 * Second);
          MaxVisibilityTimeout := Seconds (12 * Hour) |};
     QueueURL := queueURL |}.

(** The formula in the comment above the code of [BackoffCalc]:
    [(retry_count ** 3) + 15 + (rand(30) * (retry_count + 1))]. *)
Definition documented_backoff (rand30 : Z) (retry_count : Z) : Z :=
  retry_count ^ 3 + 15 + rand30 * (retry_count + 1).

(** ** The worker *)

(** The counters of the package, declared with [prometheus.NewCounter] in
    its metrics file and registered in [init]: [receive_error_total],
    [received_total], [job_panic_total], [job_error_total] and
    [job_processed_total]. All start at zero; [Inc] adds one and [Add]
    adds its argument. A counter holds a [float64]; the counts are whole
    numbers, exact in a [float64] below [2^53], and are [Z] here. The
    three gauges of the same file hold timings and are left out. *)
Record Metrics : Type := {
  receiveErrorTotal : Z;
  receivedTotal : Z;
  jobPanicTotal : Z;
  jobErrorTotal : Z;
  jobProcessedTotal : Z
}.

Definition noMetrics : Metrics :=
  {| receiveErrorTotal := 0; receivedTotal := 0; jobPanicTotal := 0;
     jobErrorTotal := 0; jobProcessedTotal := 0 |}.

Definition receiveErrorTotal_Inc (m : Metrics) : Metrics :=
  {| receiveErrorTotal := receiveErrorTotal m + 1;
     receivedTotal := receivedTotal m;
     jobPanicTotal := jobPanicTotal m;
     jobErrorTotal := jobErrorTotal m;
     jobProcessedTotal := jobProcessedTotal m |}.

Definition receivedTotal_Add (n : Z) (m : Metrics) : Metrics :=
  {| receiveErrorTotal := receiveErrorTotal m;
     receivedTotal := receivedTotal m + n;
     jobPanicTotal := jobPanicTotal m;
     jobErrorTotal := jobErrorTotal m;
     jobProcessedTotal := jobProcessedTotal m |}.

Definition jobPanicTotal_Inc (m : Metrics) : Metrics :=
  {| receiveErrorTotal := receiveErrorTotal m;
     receivedTotal := receivedTotal m;
     jobPanicTotal := jobPanicTotal m + 1;
     jobErrorTotal := jobErrorTotal m;
     jobProcessedTotal := jobProcessedTotal m |}.

Definition jobErrorTotal_Inc (m : Metrics) : Metrics :=
  {| receiveErrorTotal := receiveErrorTotal m;
     receivedTotal := receivedTotal m;
     jobPanicTotal := jobPanicTotal m;
     jobErrorTotal := jobErrorTotal m + 1;
     jobProcessedTotal := jobProcessedTotal m |}.

Definition jobProcessedTotal_Inc (m : Metrics) : Metrics :=
  {| receiveErrorTotal := receiveErrorTotal m;
     receivedTotal := receivedTotal m;
     jobPanicTotal := jobPanicTotal m;
     jobErrorTotal := jobErrorTotal m;
     jobProcessedTotal := jobProcessedTotal m + 1 |}.

(** The state of the process as the loop sees it. *)
Record world : Type := {
  trace : list event;
  metrics : Metrics
}.

Definition record (e : event) (s : world) : world :=
  {| trace := trace s ++ [e]; metrics := metrics s |}.

Definition count (f : Metrics → Metrics) (s : world) : world :=
  {| trace := trace s; metrics := f (metrics s) |}.

(** [context.Context]: whether [ctx.Done()] is closed when it is looked at
    after the given history. *)
Definition Context : Type := list event → bool.

(** How a call of the handler ends: it returns an error or [nil], or it
    panics. [Panicked r] carries what [recover()] then returns in the
    deferred function: the value given to [panic], which is [nil] (here
    [None]) after [panic(nil)]; the Go of this package (1.9 and 1.10)
    does not turn a nil panic value into an error of its own. *)
Inductive ending : Type :=
| Returned (err : option error)
| Panicked (r : option string).

(** A handler gets the context and the job; it can call the methods of the
    job, which changes the job and the history. *)
Definition HandlerFunc : Type :=
  Context → sqsJob → list event → ending * sqsJob * list event.

(** The handler whose body is a sequence of calls of the job's methods and
    that returns the last result: a panic of a method is a run-time
    error, a value that is not nil. *)
Definition handlerOf (m : Go (option error)) : HandlerFunc :=
  fun _ j tr =>
    match m j tr with
    | (Ret err, j', tr') => (Returned err, j', tr')
    | (Panic v, j', tr') => (Panicked (Some v), j', tr')
    end.

Record sqsWorker : Type := {
  worker_cfg : Config;
  worker_svc : SQSAPI
}.

(** The body of the goroutine that [handleResponse] starts for one job:
    the handler runs under a deferred function that calls [recover()] and
    counts the panic when the value recovered is not nil. After a panic
    the rest of the body is not run. *)
Definition handle (ctx : Context) (handler : HandlerFunc) (j : sqsJob)
    (s : world) : world :=
  match handler ctx j (trace s) with
  | (Panicked r, _, tr) =>
      match r with
      | Some _ =>
          {| trace := tr;
             metrics := jobErrorTotal_Inc (jobPanicTotal_Inc (metrics s)) |}
      | None => {| trace := tr; metrics := metrics s |}
      end
  | (Returned err, j', tr) =>
      let m := metrics s in
      let m := match err with
               | Some _ => jobErrorTotal_Inc m
               | None => m
               end in
      let m := if negb (Handled j')
               then jobErrorTotal_Inc m
               else jobProcessedTotal_Inc m in
      {| trace := tr; metrics := m |}
  end.

(** The goroutines of one batch run concurrently and are joined by
    [wg.Wait()]; here they run in the order of the batch. The calls of
    [j.ID()] are made by the loop itself, outside any [recover]. *)
Fixpoint handleResponse (w : sqsWorker) (ctx : Context)
    (msgs : list sqs.Message) (handler : HandlerFunc) (s : world)
    : outcome unit * world :=
  match msgs with
  | [] => (Ret tt, s)
  | m :: rest =>
      let j := NewJob (worker_cfg w) m (worker_svc w) in
      match ID j with
      | Panic v => (Panic v, s)
      | Ret _ => handleResponse w ctx rest handler (handle ctx handler j s)
      end
  end.

(** Where a consumer loop stands after an iteration: it goes on polling,
    it has returned, or a panic has left it (which ends the process). *)
Inductive status : Type :=
| Polling
| Stopped
| Crashed (v : string).

(** The input of [ReceiveMessageRequest]; the attribute names it asks for
    are constants and are left out. *)
Definition ReceiveMessageInput (c : Config) : sqs.request :=
  sqs.ReceiveMessage (QueueURL c)
    (RetrievalMaxNumberOfMessages (Consumer c))
    (RetrievalVisibilityTimeout (Consumer c))
    (RetrievalWaitTimeSeconds (Consumer c)).

(** One iteration of the [for] loop of [receive]. *)
Definition receive_iteration (w : sqsWorker) (ctx : Context)
    (handler : HandlerFunc) (s : world) : status * world :=
  if ctx (trace s) then (Stopped, s)
  else
    let c := worker_cfg w in
    let req := ReceiveMessageInput c in
    let resp := worker_svc w (trace s) req in
    let s := record (Sent req) s in
    match sqs.Err resp with
    | Some _ =>
        let s := count receiveErrorTotal_Inc s in
        if RunOnce (Consumer c) then (Stopped, s)
        else (Polling, record (Slept (RetrievalErrWait (Consumer c))) s)
    | None =>
        let msgs := sqs.Messages resp in
        let s := count (receivedTotal_Add (Z.of_nat (length msgs))) s in
        let '(r, s) :=
          if (length msgs =? 0)%nat then (Ret tt, s)
          else handleResponse w ctx msgs handler s in
        match r with
        | Panic v => (Crashed v, s)
        | Ret _ =>
            let s := if RunSlowly (Consumer c) >? 0
                     then record (Slept (RunSlowly (Consumer c))) s
                     else s in
            if RunOnce (Consumer c) then (Stopped, s) else (Polling, s)
        end
    end.

(** [receive]: the loop, for at most [fuel] iterations; [Polling] is the
    answer when the loop is still running after them. *)
Fixpoint receive (fuel : nat) (w : sqsWorker) (ctx : Context)
    (handler : HandlerFunc) (s : world) : status * world :=
  match fuel with
  | O => (Polling, s)
  | S fuel' =>
      match receive_iteration w ctx handler s with
      | (Polling, s') => receive fuel' w ctx handler s'
      | stop => stop
      end
  end.

(** ** Notions used to state the properties *)

(** The number of seconds [Release(secs)] asks for: the three [if]s of
    [Release] in the order of the code. *)
Definition visibility (c : JobConfig) (secs : Z) : Z :=
  let secs := if secs <? MinVisibilityTimeout c
              then MinVisibilityTimeout c else secs in
  let secs := if secs >? MaxVisibilityTimeout c
              then MaxVisibilityTimeout c else secs in
  if secs >=? Seconds (12 * Hour) then secs - 1 else secs.

(** Whether [Release(secs)] writes one of its two "below minimum" and
    "above maximum" log lines, for which it evaluates [j.ID()]. *)
Definition logs_bound (c : JobConfig) (secs : Z) : bool :=
  (secs <? MinVisibilityTimeout c)
  || ((if secs <? MinVisibilityTimeout c
       then MinVisibilityTimeout c else secs) >? MaxVisibilityTimeout c).

(** What the words of the specification ask of the number of seconds:
    clamp into [[Min, Max]], then stay below the ceiling of 12 hours. *)
Definition clamp_then_ceiling (c : JobConfig) (secs : Z) : Z :=
  Z.min (Z.max (MinVisibilityTimeout c) (Z.min secs (MaxVisibilityTimeout c)))
        (43200 - 1).

(** The request a writing method sends. *)
Definition request_of (op : terminal) (j : sqsJob) (t : Z) : sqs.request :=
  match op with
  | callDelete =>
      sqs.DeleteMessage (QueueURL (cfg j)) (sqs.ReceiptHandle (msg j))
  | callRelease secs =>
      sqs.ChangeMessageVisibility (QueueURL (cfg j))
        (sqs.ReceiptHandle (msg j)) (visibility (Job (cfg j)) secs)
  | callBackoff =>
      sqs.ChangeMessageVisibility (QueueURL (cfg j))
        (sqs.ReceiptHandle (msg j))
        (visibility (Job (cfg j)) (BackoffCalc (Job (cfg j)) t))
  end.

(** A delete or a change of visibility, the two requests that end the
    handling of a message. *)
Definition terminal_request (req : sqs.request) : Prop :=
  match req with
  | sqs.DeleteMessage _ _ | sqs.ChangeMessageVisibility _ _ _ => True
  | sqs.ReceiveMessage _ _ _ _ => False
  end.

(** The values of [handled] before each call of a sequence of calls and
    after the last; the caller goes on after a panic (it may recover). *)
Fixpoint handled_history (ops : list terminal) (j : sqsJob) (tr : list event)
    : list bool :=
  handled j ::
  match ops with
  | [] => []
  | op :: rest =>
      let '(_, j', tr') := run op j tr in handled_history rest j' tr'
  end.

(** How often a list of flags goes from [a] to [b] in adjacent places. *)
Fixpoint changes (a b : bool) (l : list bool) : nat :=
  match l with
  | x :: ((y :: _) as rest) =>
      ((if bool_decide (x = a ∧ y = b) then 1 else 0) + changes a b rest)%nat
  | _ => 0%nat
  end.

(** The delivery count as [Tries] finds it through [Attribute]: the
    attribute of that name set by the sender if there is one, the
    attribute set by the queue otherwise. *)
Definition reported_count (m : sqs.Message) : option string :=
  match sqs.MessageAttributes m
          !! sqs.MessageSystemAttributeNameApproximateReceiveCount with
  | Some a => sqs.StringValue a
  | None =>
      sqs.Attributes m !! sqs.MessageSystemAttributeNameApproximateReceiveCount
  end.

(** ** Inputs of the examples *)

(** A client whose requests all succeed and that has no messages. *)
Definition okClient : SQSAPI :=
  fun _ _ => {| sqs.Messages := []; sqs.Err := None |}.

(** A client whose requests all fail. *)
Definition erroredClient : SQSAPI :=
  fun _ _ =>
    {| sqs.Messages := []; sqs.Err := Some (transportError "i just errored") |}.

(** [sqs.Message{MessageId: aws.String("123")}] *)
Definition message123 : sqs.Message :=
  {| sqs.MessageId := Some "123"%string;
     sqs.Body := None;
     sqs.ReceiptHandle := None;
     sqs.MessageAttributes := ∅;
     sqs.Attributes := ∅ |}.

(** The same message with a delivery count reported by the queue. *)
Definition message_with_count (count : string) : sqs.Message :=
  {| sqs.MessageId := Some "123"%string;
     sqs.Body := None;
     sqs.ReceiptHandle := None;
     sqs.MessageAttributes := ∅;
     sqs.Attributes :=
       {[ sqs.MessageSystemAttributeNameApproximateReceiveCount := count ]} |}.

(** [sqs.Message{}]: nothing is set, not even the identifier. *)
Definition emptyMessage : sqs.Message :=
  {| sqs.MessageId := None;
     sqs.Body := None;
     sqs.ReceiptHandle := None;
     sqs.MessageAttributes := ∅;
     sqs.Attributes := ∅ |}.

(** A message whose sender set the attribute ["foo"] with a binary value
    (no string value), while the queue reports ["foo"] too. *)
Definition binaryFooMessage : sqs.Message :=
  {| sqs.MessageId := Some "123"%string;
     sqs.Body := Some "payload"%string;
     sqs.ReceiptHandle := None;
     sqs.MessageAttributes :=
       {[ "foo"%string := {| sqs.StringValue := None |} ]};
     sqs.Attributes := {[ "foo"%string := "bar"%string ]} |}.

(** [NewDefaultConfig("http://some/queue/url", 1)] with a draw of 7. *)
Definition defaultConfig : Config :=
  NewDefaultConfig (fun _ => 7) "http://some/queue/url" 1.

(** The default configuration with [cfg.Job.MaxVisibilityTimeout = 40]. *)
Definition max40Config : Config :=
  {| Consumer := Consumer defaultConfig;
     Job := {| BackoffCalc := BackoffCalc (Job defaultConfig);
               MinVisibilityTimeout := MinVisibilityTimeout (Job defaultConfig);
               MaxVisibilityTimeout := 40 |};
     QueueURL := QueueURL defaultConfig |}.

(** The default configuration after [cfg.RunOnce()]. *)
Definition runOnceConfig : Config :=
  {| Consumer :=
       {| Count := 1;
          RetrievalErrWait := RetrievalErrWait (Consumer defaultConfig);
          RetrievalMaxNumberOfMessages := 1;
          RetrievalVisibilityTimeout :=
            RetrievalVisibilityTimeout (Consumer defaultConfig);
          RetrievalWaitTimeSeconds :=
            RetrievalWaitTimeSeconds (Consumer defaultConfig);
          RunOnce := true;
          RunSlowly := 0 |};
     Job := Job defaultConfig;
     QueueURL := QueueURL defaultConfig |}.

(** A client that answers every receive with one message. *)
Definition receiveClient (m : sqs.Message) : SQSAPI :=
  fun _ req =>
    match req with
    | sqs.ReceiveMessage _ _ _ _ => {| sqs.Messages := [m]; sqs.Err := None |}
    | _ => {| sqs.Messages := []; sqs.Err := None |}
    end.

(** A context that is never cancelled. *)
Definition background : Context := fun _ => false.

(** The handler of the tests: it does nothing and returns [nil]. *)
Definition idleHandler : HandlerFunc := handlerOf (ret None).

(** [func(ctx, j) error { panic(nil) }] *)
Definition nilPanicHandler : HandlerFunc :=
  fun _ j tr => (Panicked None, j, tr).

(** A handler that reads everything the job offers and then deletes it. *)
Definition readingHandler : HandlerFunc :=
  handlerOf
    (do_ call (fun j => Ret (Body j));
     do_ call (fun j => Attribute j "foo");
     do_ call Tries;
     Delete).

(** The state of a process that has done nothing yet. *)
Definition start : world := {| trace := []; metrics := noMetrics |}.

(** ** The debug modes of the configuration *)

(** [cfg.RunOnce()] and [cfg.RunSlowly(pause)]. The methods have the names
    of the fields they set, so they carry the name of their receiver type
    here. They write to [cfg.Consumer] and leave the rest alone. *)
Definition Config_RunOnce (c : Config) : Config :=
  {| Consumer :=
       {| Count := 1;
          RetrievalErrWait := RetrievalErrWait (Consumer c);
          RetrievalMaxNumberOfMessages := 1;
          RetrievalVisibilityTimeout := RetrievalVisibilityTimeout (Consumer c);
          RetrievalWaitTimeSeconds := RetrievalWaitTimeSeconds (Consumer c);
          RunOnce := true;
          RunSlowly := 0 |};
     Job := Job c;
     QueueURL := QueueURL c |}.

Definition Config_RunSlowly (pause : Z) (c : Config) : Config :=
  {| Consumer :=
       {| Count := 1;
          RetrievalErrWait := RetrievalErrWait (Consumer c);
          RetrievalMaxNumberOfMessages := 1;
          RetrievalVisibilityTimeout := RetrievalVisibilityTimeout (Consumer c);
          RetrievalWaitTimeSeconds := RetrievalWaitTimeSeconds (Consumer c);
          RunOnce := false;
          RunSlowly := pause |};
     Job := Job c;
     QueueURL := QueueURL c |}.

(** ** Handlers and rounds of the loop used in the properties *)

(** [func(ctx, j) error { return j.Delete() }] *)
Definition deleteHandler : HandlerFunc := handlerOf Delete.

(** What one iteration of the loop adds to the history when the receive
    succeeds and no handler adds anything: the receive request and, in
    run-slowly mode, the pause. *)
Definition quiet_round (c : Config) : list event :=
  Sent (ReceiveMessageInput c) ::
  (if RunSlowly (Consumer c) >? 0
   then [Slept (RunSlowly (Consumer c))] else []).

(** A context that is cancelled once the history has [n] events. *)
Definition cancelledFrom (n : nat) : Context :=
  fun h => (n <=? length h)%nat.

(** ** The watcher for the termination of a spot instance *)

Module spot.

Definition terminationTimeFormat : string := "2006-01-02T15:04:05Z".

Definition StatusOK : Z := 200.

(** What [w.Client.Get(w.Endpoint)] gives at one turn of the loop: an
    error, or a response with its status code and what
    [ioutil.ReadAll(resp.Body)] returns ([None] when reading fails). *)
Inductive getResult : Type :=
| GetError (err : error)
| GetResponse (StatusCode : Z) (body : option string).

(** What the watcher has done when [pollEndpoint] returns: the turn of the
    loop at which it closed the channel, the time it read, and the turns
    whose response bodies the deferred calls close, in the order in which
    they run. *)
Record notice (T : Type) : Type := {
  turn : nat;
  when : T;
  closed : list nat
}.
Arguments turn {T} n.
Arguments when {T} n.
Arguments closed {T} n.

(** [pollEndpoint], for the turns of the loop whose [Get] results are
    given: the first turn is made at once, each further one after a tick.
    [time_Parse] is [time.Parse] of the Go library, with the layout and
    the value. [deferred] holds the turns whose [resp.Body.Close()] has
    been deferred, the last one first: deferred calls run when the
    function returns, last in, first out. The result is [None] when the
    loop is still waiting for a tick after the turns given. *)
Fixpoint pollEndpoint {T : Type} (time_Parse : string → string → option T)
    (gets : list getResult) (i : nat) (deferred : list nat)
    : option (notice T) :=
  match gets with
  | [] => None
  | GetError _ :: rest => pollEndpoint time_Parse rest (S i) deferred
  | GetResponse code body :: rest =>
      let deferred := i :: deferred in
      if negb (code =? StatusOK)
      then pollEndpoint time_Parse rest (S i) deferred
      else
        match body with
        | None => pollEndpoint time_Parse rest (S i) deferred
        | Some b =>
            match time_Parse terminationTimeFormat b with
            | None => pollEndpoint time_Parse rest (S i) deferred
            | Some t => Some {| turn := i; when := t; closed := deferred |}
            end
        end
  end.

(** The time that a [Get] result announces, if it is a termination
    notice: status 200 with a body that reads and parses. *)
Definition announces {T : Type} (time_Parse : string → string → option T)
    (g : getResult) : option T :=
  match g with
  | GetResponse code (Some b) =>
      if code =? StatusOK then time_Parse terminationTimeFormat b else None
  | _ => None
  end.

(** The turns, counted from [i], at which a response came back. *)
Fixpoint response_turns (i : nat) (gets : list getResult) : list nat :=
  match gets with
  | [] => []
  | GetError _ :: rest => response_turns (S i) rest
  | GetResponse _ _ :: rest => i :: response_turns (S i) rest
  end.

(** A [time.Parse] that knows one timestamp, for the examples. *)
Definition parseOne (layout value : string) : option Z :=
  if String.eqb value "2018-03-01T12:00:00Z" then Some 1519905600 else None.

End spot.

(** * Properties *)

(** ** Conversions to [int64] *)

Lemma int64_small z : - 2 ^ 63 ≤ z < 2 ^ 63 → int64 z = z.
Proof.
  intros Hz. unfold int64. rewrite Z.mod_small; lia.
Qed.

Lemma int64_min : int64 (2 ^ 63) = - 2 ^ 63.
Proof. reflexivity. Qed.

(** ** [strconv.ParseInt] reads back the decimal form of every [int64] *)

Module strconv_facts.
Import strconv.

Lemma digit_pretty_N_char (d : N) :
(d < 10)%N → digit (pretty_N_char d) = Some (Z.of_N d).
Proof.
intros Hd.
assert (d = 0 ∨ d = 1 ∨ d = 2 ∨ d = 3 ∨ d = 4 ∨ d = 5 ∨ d = 6 ∨ d = 7
        ∨ d = 8 ∨ d = 9)%N as Hcases by lia.
repeat destruct Hcases as [-> | Hcases]; try subst d; reflexivity.
Qed.

Lemma digit_not_sign c d :
digit c = Some d → Ascii.eqb c "+" = false ∧ Ascii.eqb c "-" = false.
Proof.
unfold digit. intros H. split.
- destruct (Ascii.eqb_spec c "+") as [-> | ]; [discriminate | done].
- destruct (Ascii.eqb_spec c "-") as [-> | ]; [discriminate | done].
Qed.

Lemma ParseUint_loop_digit c rest n d :
digit c = Some d → 0 ≤ d < 10 → 0 ≤ n → n * 10 + d ≤ maxUint64 →
ParseUint_loop (String c rest) n = ParseUint_loop rest (n * 10 + d).
Proof.
intros Hc Hd Hn Hmax. unfold maxUint64 in Hmax. simpl. rewrite Hc.
change (maxUint64 / 10 + 1) with 1844674407370955162.
change (2 ^ 64) with 18446744073709551616 in *.
destruct (Z.leb_spec 1844674407370955162 n); [lia |].
rewrite (Z.mod_small (n * 10)) by lia.
rewrite (Z.mod_small (n * 10 + d)) by lia.
destruct (Z.ltb_spec (n * 10 + d) (n * 10)); [lia |].
destruct (Z.ltb_spec (18446744073709551616 - 1) (n * 10 + d)); [lia |].
reflexivity.
Qed.

Lemma ParseUint_loop_pretty_N_go (x : N) :
∃ p : Z, 1 ≤ p ∧ Z.of_N x < p ∧
  ∀ s n, 0 ≤ n → n * p + Z.of_N x ≤ maxUint64 →
    ParseUint_loop (pretty_N_go x s) n = ParseUint_loop s (n * p + Z.of_N x).
Proof.
induction (N.lt_wf_0 x) as [x _ IH].
destruct (decide (x = 0)%N) as [-> | Hx].
- exists 1. split; [lia |]. split; [lia |]. intros s n _ _.
  rewrite pretty_N_go_0. f_equal. lia.
- assert (0 < x)%N as Hpos by lia.
  destruct (IH (x `div` 10)%N) as (p & Hp1 & Hlt & Hgo).
  { apply N.div_lt; lia. }
  pose proof (N.div_mod x 10 ltac:(lia)) as Hdm.
  pose proof (N.mod_lt x 10 ltac:(lia)) as Hmod.
  remember (x `div` 10)%N as q eqn:Hq.
  remember (x `mod` 10)%N as r eqn:Hr.
  exists (10 * p). split; [lia |]. split; [lia |].
  intros s n Hn Hmax.
  rewrite pretty_N_go_step by done. rewrite <- Hq, <- Hr.
  rewrite Hgo by lia.
  rewrite (ParseUint_loop_digit _ _ _ (Z.of_N r)).
  + f_equal. lia.
  + by apply digit_pretty_N_char.
  + lia.
  + lia.
  + lia.
Qed.

Lemma pretty_N_go_head (x : N) (s : string) :
(0 < x)%N → ∃ d rest, (d < 10)%N ∧
  pretty_N_go x s = String (pretty_N_char d) rest.
Proof.
revert s. induction (N.lt_wf_0 x) as [x _ IH]. intros s Hpos.
rewrite pretty_N_go_step by done.
destruct (decide (x `div` 10 = 0)%N) as [Hz | Hnz].
- rewrite Hz, pretty_N_go_0. eexists _, _. split; [| reflexivity].
  apply N.mod_lt. lia.
- apply IH; [apply N.div_lt; lia | by apply N.neq_0_lt_0].
Qed.

Lemma ParseUint_pretty_positive (p : positive) :
Z.pos p ≤ maxUint64 →
ParseUint (pretty_N_go (N.pos p) "") = (Z.pos p, None).
Proof.
intros Hmax.
destruct (pretty_N_go_head (N.pos p) "" (eq_refl : (0 ?= N.pos p)%N = Lt)) as (d & rest & Hd & Heq).
unfold ParseUint. rewrite Heq, <- Heq.
destruct (ParseUint_loop_pretty_N_go (N.pos p)) as (q & _ & _ & Hgo).
rewrite Hgo by (simpl; lia). simpl. done.
Qed.

Lemma ParseInt_pretty (n : Z) :
- 2 ^ 63 ≤ n < 2 ^ 63 → ParseInt (pretty n) = (n, None).
Proof.
intros Hn. destruct n as [| p | p].
- reflexivity.
- change (pretty (Z.pos p)) with (pretty_N_go (N.pos p) "").
  pose proof (ParseUint_pretty_positive p) as HU.
  destruct (pretty_N_go_head (N.pos p) "" (eq_refl : (0 ?= N.pos p)%N = Lt)) as (d & rest & Hd & Heq).
  pose proof (digit_not_sign _ _ (digit_pretty_N_char d Hd)) as [Hplus Hminus].
  rewrite Heq in *. unfold ParseInt. rewrite Hplus, Hminus.
  rewrite HU by (unfold maxUint64; lia).
  destruct (Z.leb_spec (2 ^ 63) (Z.pos p)); [lia |]. simpl negb. simpl andb.
  rewrite int64_small by lia. reflexivity.
- change (pretty (Z.neg p)) with (String "-" (pretty_N_go (N.pos p) "")).
  unfold ParseInt. change (Ascii.eqb "-" "+") with false.
  change (Ascii.eqb "-" "-") with true. cbv iota.
  rewrite ParseUint_pretty_positive by (unfold maxUint64; lia).
  simpl negb. simpl andb.
  destruct (Z.ltb_spec (2 ^ 63) (Z.pos p)); [lia |].
  destruct (decide (p = 9223372036854775808%positive)) as [-> | Hne].
  + reflexivity.
  + assert (Z.pos p ≠ 2 ^ 63) by (intros [= ->]; done).
    rewrite (int64_small (Z.pos p)) by lia.
    rewrite int64_small by lia. reflexivity.
Qed.
End strconv_facts.

(** ** The writing methods, case by case *)

Section JobFacts.
Variables (j : sqsJob) (tr : list event).

Lemma ID_with_handled b : ID (with_handled b j) = ID j.
Proof. reflexivity. Qed.

Lemma Tries_with_handled b : Tries (with_handled b j) = Tries j.
Proof. reflexivity. Qed.

Lemma Delete_unfold :
  Delete j tr =
    if handled j then (Ret (Some ErrAlreadyHandled), j, tr)
    else
      let req := request_of callDelete j 0 in
      match sqs.Err (svc j tr req) with
      | None =>
          (match ID j with Ret _ => Ret None | Panic v => Panic v end,
           with_handled true j, tr ++ [Sent req])
      | Some e => (Ret (Some e), j, tr ++ [Sent req])
      end.
Proof.
  unfold Delete, bind, Send, set_handled, call, ret, request_of.
  destruct (handled j); [reflexivity |]. cbn.
  destruct (sqs.Err _); [reflexivity |].
  rewrite ID_with_handled. destruct (ID j); reflexivity.
Qed.

Lemma Release_unfold secs :
  Release secs j tr =
    if handled j then (Ret (Some ErrAlreadyHandled), j, tr)
    else
      let req := request_of (callRelease secs) j 0 in
      match ID j with
      | Panic v =>
          if logs_bound (Job (cfg j)) secs then (Panic v, j, tr)
          else
            match sqs.Err (svc j tr req) with
            | None => (Panic v, with_handled true j, tr ++ [Sent req])
            | Some e => (Ret (Some e), j, tr ++ [Sent req])
            end
      | Ret _ =>
          match sqs.Err (svc j tr req) with
          | None => (Ret None, with_handled true j, tr ++ [Sent req])
          | Some e => (Ret (Some e), j, tr ++ [Sent req])
          end
      end.
Proof.
  unfold Release, bind, Send, set_handled, call, ret, request_of,
    visibility, logs_bound.
  destruct (handled j); [reflexivity |].
  destruct (ID j) as [id | v] eqn:Hid;
    destruct (secs <? _) eqn:Hmin; cbn; rewrite ?Hid; cbn;
    try reflexivity;
    match goal with
    | |- context [if ?b >? ?c then _ else _] =>
        destruct (b >? c) eqn:Hmax; cbn; rewrite ?Hid, ?Hmax; cbn
    end;
    try reflexivity;
    match goal with
    | |- context [sqs.Err ?r] => destruct (sqs.Err r); cbn
    end;
    rewrite ?ID_with_handled, ?Hid; reflexivity.
Qed.

Lemma Backoff_unfold :
  Backoff j tr =
    match Tries j with
    | Panic v => (Panic v, j, tr)
    | Ret (_, Some err) => (Ret (Some err), j, tr)
    | Ret (tries, None) =>
        match ID j with
        | Panic v => (Panic v, j, tr)
        | Ret _ => Release (BackoffCalc (Job (cfg j)) tries) j tr
        end
    end.
Proof.
  unfold Backoff, bind, call, ret.
  destruct (Tries j) as [[t [e |]] | v]; reflexivity.
Qed.
End JobFacts.

(** What a call of a writing method can do: nothing at all to the job and
    the history (and then it does not return [nil]), or send exactly one
    terminal request, after which the flag is set if and only if the
    request succeeded. *)
Lemma run_inv (op : terminal) (j : sqsJob) (tr : list event) r j' tr' :
  run op j tr = (r, j', tr') →
  (j' = j ∧ tr' = tr ∧ r ≠ Ret None
   ∧ (handled j = true → op ≠ callBackoff → r = Ret (Some ErrAlreadyHandled)))
  ∨ (handled j = false ∧ ∃ t, let req := request_of op j t in
       terminal_request req ∧ tr' = tr ++ [Sent req] ∧
       (op = callBackoff → Tries j = Ret (t, None) ∧ ∃ id, ID j = Ret id) ∧
       match sqs.Err (svc j tr req) with
       | Some e => r = Ret (Some e) ∧ j' = j
       | None =>
           j' = with_handled true j ∧
           r = match ID j with Ret _ => Ret None | Panic v => Panic v end
       end).
Proof.
  assert (Hrel : ∀ secs, run (callRelease secs) j tr = (r, j', tr') →
    (j' = j ∧ tr' = tr ∧ r ≠ Ret None
     ∧ (handled j = true → r = Ret (Some ErrAlreadyHandled)))
    ∨ (handled j = false ∧ let req := request_of (callRelease secs) j 0 in
         terminal_request req ∧ tr' = tr ++ [Sent req] ∧
         match sqs.Err (svc j tr req) with
         | Some e => r = Ret (Some e) ∧ j' = j
         | None =>
             j' = with_handled true j ∧
             r = match ID j with Ret _ => Ret None | Panic v => Panic v end
         end)).
  { intros secs H. cbn [run] in H. rewrite Release_unfold in H.
    destruct (handled j) eqn:Hh.
    { left. by simplify_eq. }
    cbn zeta in H.
    destruct (ID j) as [id | v] eqn:Hid.
    - right. split; [done |]. cbn zeta. split; [done |].
      destruct (sqs.Err _); by simplify_eq.
    - destruct (logs_bound _ _).
      + left. by simplify_eq.
      + right. split; [done |]. cbn zeta. split; [done |].
        destruct (sqs.Err _); by simplify_eq. }
  destruct op as [| secs |]; intros H.
  - cbn [run] in H. rewrite Delete_unfold in H.
    destruct (handled j) eqn:Hh.
    { left. by simplify_eq. }
    right. split; [done |]. exists 0. cbn zeta in *. split; [done |].
    destruct (sqs.Err _); by simplify_eq.
  - destruct (Hrel secs H) as [(-> & -> & ? & ?) | (? & ? & ? & ?)].
    + left. eauto.
    + right. split; [done |]. exists 0. cbn zeta. done.
  - cbn [run] in H. rewrite Backoff_unfold in H.
    destruct (Tries j) as [[t [e |]] | v] eqn:HT.
    + left. by simplify_eq.
    + destruct (ID j) as [id | v] eqn:Hid.
      * destruct (Hrel (BackoffCalc (Job (cfg j)) t) H)
          as [(-> & -> & ? & ?) | (? & ? & ? & ?)].
        -- left. done.
        -- right. split; [done |]. exists t. cbn zeta.
           split; [done |]. split; [done |]. split; [eauto |]. done.
      * left. by simplify_eq.
    + left. by simplify_eq.
Qed.

(** ** Calling a writing method twice *)

Lemma run_handled (op : terminal) (j : sqsJob) (tr : list event) :
  handled j = true →
  ∃ r, run op j tr = (r, j, tr) ∧
    match op with
    | callBackoff =>
        match Tries j with
        | Ret (_, None) =>
            r = match ID j with
                | Ret _ => Ret (Some ErrAlreadyHandled)
                | Panic v => Panic v
                end
        | Ret (_, Some e) => r = Ret (Some e)
        | Panic v => r = Panic v
        end
    | _ => r = Ret (Some ErrAlreadyHandled)
    end.
Proof.
  intros Hh. destruct op as [| secs |]; cbn [run].
  - rewrite Delete_unfold, Hh. eauto.
  - rewrite Release_unfold, Hh. eauto.
  - rewrite Backoff_unfold.
    destruct (Tries j) as [[t [e |]] | v]; eauto.
    destruct (ID j); eauto. rewrite Release_unfold, Hh. eauto.
Qed.

(** C1 (as amended). After a writing method ([Delete], [Release] or
    [Backoff]) has returned [nil], exactly one request has been sent, and
    a second call of any of them leaves the job and the history as they
    are: it sends nothing. A second [Delete] or [Release] returns
    [ErrAlreadyHandled]. A second [Backoff] first asks for the number of
    tries: it returns [ErrAlreadyHandled] when [Tries] succeeds (as it does
    when the first call was a [Backoff]), and otherwise the error of
    [Tries], or panics as [Tries] does. *)
Theorem second_terminal_call (op1 op2 : terminal) (j : sqsJob)
    (tr : list event) (j1 : sqsJob) (tr1 : list event) :
  run op1 j tr = (Ret None, j1, tr1) →
  (∃ req, terminal_request req ∧ tr1 = tr ++ [Sent req]) ∧
  ∃ r, run op2 j1 tr1 = (r, j1, tr1) ∧
    match op2 with
    | callBackoff =>
        match Tries j1 with
        | Ret (_, None) => r = Ret (Some ErrAlreadyHandled)
        | Ret (_, Some e) => r = Ret (Some e)
        | Panic v => r = Panic v
        end
        ∧ (op1 = callBackoff → r = Ret (Some ErrAlreadyHandled))
    | _ => r = Ret (Some ErrAlreadyHandled)
    end.
Proof.
  intros H1.
  destruct (run_inv _ _ _ _ _ _ H1)
    as [(_ & _ & Hne & _) | (Hh & t & Hreq & -> & HB & Hsent)]; [done |].
  cbn zeta in Hsent.
  destruct (sqs.Err _) as [e |]; [by destruct Hsent |].
  destruct Hsent as [-> Hr].
  destruct (ID j) as [id | v] eqn:Hid; [| done].
  split; [eauto |].
  destruct (run_handled op2 (with_handled true j)
              (tr ++ [Sent (request_of op1 j t)]) eq_refl) as (r & Hrun & Hres).
  exists r. split; [done |].
  destruct op2; try done.
  rewrite Tries_with_handled, ID_with_handled, Hid in *.
  split.
  - destruct (Tries j) as [[? [? |]] | ?]; done.
  - intros Hop. destruct (HB Hop) as [HT _]. by rewrite HT in Hres.
Qed.

Lemma second_terminal_call_witness :
  run callBackoff (with_handled true (NewJob defaultConfig message123 okClient))
    [Sent (sqs.DeleteMessage "http://some/queue/url" None)]
  = (Ret (Some (errorsNew "failed to get recieve count off sqs message")),
     with_handled true (NewJob defaultConfig message123 okClient),
     [Sent (sqs.DeleteMessage "http://some/queue/url" None)]).
Proof.
  destruct (second_terminal_call callDelete callBackoff
              (NewJob defaultConfig message123 okClient) []
              (with_handled true (NewJob defaultConfig message123 okClient))
              [Sent (sqs.DeleteMessage "http://some/queue/url" None)])
    as (_ & r & Hrun & Hres & _).
  - reflexivity.
  - vm_compute in Hres. rewrite Hres in Hrun. exact Hrun.
Defined.

(** C1 as written fails: on a message without a delivery count, [Delete]
    succeeds and the [Backoff] that follows returns the error of [Tries],
    not [ErrAlreadyHandled]. *)
Lemma second_Backoff_not_AlreadyHandled :
  ¬ (∀ (op1 op2 : terminal) (j : sqsJob) (tr : list event) j1 tr1,
       run op1 j tr = (Ret None, j1, tr1) →
       run op2 j1 tr1 = (Ret (Some ErrAlreadyHandled), j1, tr1)).
Proof.
  intros H.
  specialize (H callDelete callBackoff
                (NewJob defaultConfig message123 okClient) []
                (with_handled true (NewJob defaultConfig message123 okClient))
                [Sent (sqs.DeleteMessage "http://some/queue/url" None)]
                eq_refl).
  apply (f_equal (λ x, fst (fst x))) in H. vm_compute in H. discriminate H.
Qed.

(** ** The number of seconds that [Release] sends *)

Lemma twelve_hours : Seconds (12 * Hour) = 43200.
Proof. reflexivity. Qed.

(** With bounds in order and a maximum within the 12 hours that the
    configuration documents, the three [if]s of [Release] compute the clamp
    followed by the ceiling. *)
Lemma visibility_clamp (c : JobConfig) (secs : Z) :
  MinVisibilityTimeout c ≤ MaxVisibilityTimeout c →
  MaxVisibilityTimeout c ≤ 43200 →
  visibility c secs = clamp_then_ceiling c secs.
Proof.
  intros Hmm Hmax. unfold visibility, clamp_then_ceiling.
  rewrite twelve_hours, !Z.gtb_ltb, Z.geb_leb.
  destruct (Z.ltb_spec secs (MinVisibilityTimeout c));
    match goal with
    | |- context [?a <? ?b] => destruct (Z.ltb_spec a b)
    end;
    match goal with
    | |- context [?a <=? ?b] => destruct (Z.leb_spec a b)
    end; lia.
Qed.

(** Without any assumption on the bounds, [Release] on a job that is not
    handled and has an identifier sends one request, for [visibility]
    seconds. *)
Lemma Release_sends (j : sqsJob) (tr : list event) (secs : Z) (id : string) :
  handled j = false →
  sqs.MessageId (msg j) = Some id →
  ∃ r j', Release secs j tr
          = (r, j', tr ++ [Sent (request_of (callRelease secs) j 0)]).
Proof.
  intros Hh Hid. rewrite Release_unfold, Hh. unfold ID. rewrite Hid.
  cbn. destruct (sqs.Err _); eauto.
Qed.

(** C2 (as amended). On a job that is not handled and has an identifier,
    under a configuration with [Min <= Max <= 43200], [Release(x)] sends
    one change-visibility request whose timeout is [x] clamped into
    [[Min, Max]] and then kept below 43200: it is always less than 43200;
    for [x < Min] it is [Min] and for [x > Max] it is [Max], except that a
    bound of 43200 itself is sent as 43199; for [x >= 43200] it is 43199
    when [Max] is 43200 and [Max] when [Max] is smaller. *)
Theorem Release_visibility (j : sqsJob) (tr : list event) (x : Z)
    (id : string) :
  handled j = false →
  sqs.MessageId (msg j) = Some id →
  MinVisibilityTimeout (Job (cfg j)) ≤ MaxVisibilityTimeout (Job (cfg j)) →
  MaxVisibilityTimeout (Job (cfg j)) ≤ 43200 →
  let Min := MinVisibilityTimeout (Job (cfg j)) in
  let Max := MaxVisibilityTimeout (Job (cfg j)) in
  ∃ r j' v,
    Release x j tr
    = (r, j', tr ++ [Sent (sqs.ChangeMessageVisibility (QueueURL (cfg j))
                             (sqs.ReceiptHandle (msg j)) v)])
    ∧ v = clamp_then_ceiling (Job (cfg j)) x
    ∧ v < 43200
    ∧ (x < Min → v = Z.min Min 43199)
    ∧ (x > Max → v = Z.min Max 43199)
    ∧ (x >= 43200 → v = Z.min Max 43199)
    ∧ (Min ≤ x ≤ Max → v = Z.min x 43199).
Proof.
  intros Hh Hid Hmm Hmax Min Max.
  destruct (Release_sends j tr x id Hh Hid) as (r & j' & HR).
  exists r, j', (visibility (Job (cfg j)) x). split; [exact HR |].
  rewrite visibility_clamp by done. split; [done |].
  unfold clamp_then_ceiling. fold Min Max. lia.
Qed.

Lemma Release_visibility_witness :
  ∃ r j' v,
    Release 43200 (NewJob defaultConfig message123 okClient) []
    = (r, j', [] ++ [Sent (sqs.ChangeMessageVisibility
                             "http://some/queue/url" None v)])
    ∧ v = 43199.
Proof.
  destruct (Release_visibility (NewJob defaultConfig message123 okClient)
              [] 43200 "123")
    as (r & j' & v & HR & Hv & _); [reflexivity | reflexivity | | |].
  - vm_compute. discriminate.
  - vm_compute. discriminate.
  - exists r, j', v. split; [exact HR |]. rewrite Hv. reflexivity.
Defined.

(** C2 as written fails under the default configuration, where [Max] is
    43200: [Release(50000)] has [x > Max] and sends 43199, not [Max]. *)
Lemma Release_above_Max_not_Max :
  ¬ (∀ (j : sqsJob) (tr : list event) (x : Z),
       handled j = false → is_Some (sqs.MessageId (msg j)) →
       ∃ r j' v,
         Release x j tr
         = (r, j', tr ++ [Sent (sqs.ChangeMessageVisibility (QueueURL (cfg j))
                                  (sqs.ReceiptHandle (msg j)) v)])
         ∧ (x >= 43200 → v = 43199)
         ∧ (x < MinVisibilityTimeout (Job (cfg j)) →
            v = MinVisibilityTimeout (Job (cfg j)))
         ∧ (x > MaxVisibilityTimeout (Job (cfg j)) →
            v = MaxVisibilityTimeout (Job (cfg j)))).
Proof.
  intros H.
  destruct (H (NewJob defaultConfig message123 okClient) [] 50000
              eq_refl (mk_is_Some _ _ eq_refl))
    as (r & j' & v & HR & H1 & _ & H3).
  assert (v = 43199) as -> by (apply H1; lia).
  assert (43199 = 43200) as Habs; [| discriminate Habs].
  apply H3. vm_compute. reflexivity.
Qed.

(** The same claim fails in its other part when [Max] is set to 40, as in
    the tests: [Release(43200)] sends 40, not 43199. *)
Example Release_43200_with_Max_40 :
  Release 43200 (NewJob max40Config message123 okClient) []
  = (Ret None, with_handled true (NewJob max40Config message123 okClient),
     [Sent (sqs.ChangeMessageVisibility "http://some/queue/url" None 40)]).
Proof. reflexivity. Qed.

(** ** The life of the [handled] flag *)

Lemma run_keeps_handled (op : terminal) (j : sqsJob) (tr : list event)
    r j' tr' :
  handled j = true → run op j tr = (r, j', tr') → j' = j ∧ tr' = tr.
Proof.
  intros Hh Hrun. destruct (run_handled op j tr Hh) as (r0 & Hrun0 & _).
  rewrite Hrun0 in Hrun. by simplify_eq.
Qed.

Lemma handled_history_head (ops : list terminal) (j : sqsJob)
    (tr : list event) :
  ∃ rest, handled_history ops j tr = handled j :: rest.
Proof.
  destruct ops as [| op ops]; cbn [handled_history]; eauto.
Qed.

Lemma changes_cons (a b x : bool) (ops : list terminal) (j : sqsJob)
    (tr : list event) :
  changes a b (x :: handled_history ops j tr)
  = ((if bool_decide (x = a ∧ handled j = b) then 1 else 0)
     + changes a b (handled_history ops j tr))%nat.
Proof.
  destruct (handled_history_head ops j tr) as (rest & ->). reflexivity.
Qed.

(** Once the flag is set it stays set: no call changes it any more. *)
Lemma handled_history_set (a b : bool) (ops : list terminal) (j : sqsJob)
    (tr : list event) :
  handled j = true → a ≠ b → changes a b (handled_history ops j tr) = 0%nat.
Proof.
  revert j tr. induction ops as [| op ops IH]; intros j tr Hh Hab; [done |].
  cbn [handled_history].
  destruct (run op j tr) as [[r j'] tr'] eqn:Hrun.
  destruct (run_keeps_handled _ _ _ _ _ _ Hh Hrun) as [-> ->].
  rewrite changes_cons, IH by done.
  rewrite Hh. case_bool_decide as Hd; [| done].
  destruct Hd as [<- <-]. done.
Qed.

(** The flag never goes back from set to not set. *)
Lemma handled_history_no_reset (ops : list terminal) (j : sqsJob)
    (tr : list event) :
  changes true false (handled_history ops j tr) = 0%nat.
Proof.
  revert j tr. induction ops as [| op ops IH]; intros j tr; [done |].
  destruct (handled j) eqn:Hh.
  { by apply handled_history_set. }
  cbn [handled_history].
  destruct (run op j tr) as [[r j'] tr'] eqn:Hrun.
  rewrite changes_cons, IH, Hh. case_bool_decide as Hd; [| done].
  by destruct Hd.
Qed.

(** The flag goes from not set to set at most once. *)
Lemma handled_history_once (ops : list terminal) (j : sqsJob)
    (tr : list event) :
  (changes false true (handled_history ops j tr) ≤ 1)%nat.
Proof.
  revert j tr. induction ops as [| op ops IH]; intros j tr; [cbn; lia |].
  destruct (handled j) eqn:Hh.
  { rewrite handled_history_set by done. lia. }
  cbn [handled_history].
  destruct (run op j tr) as [[r j'] tr'] eqn:Hrun.
  rewrite changes_cons, Hh.
  destruct (handled j') eqn:Hh'.
  - rewrite handled_history_set by done. case_bool_decide; lia.
  - specialize (IH j' tr'). case_bool_decide as Hd; [by destruct Hd | lia].
Qed.

(** C3. A new job is not handled. Over any sequence of calls of the
    writing methods the flag goes from false to true at most once and never
    back. A call sets it only by sending a delete or change-visibility
    request that the client answers without error. When the request fails,
    the call returns the error of the client and leaves the job as it was,
    not handled; this is what [Delete] and [Release] do on every job that
    is not handled yet. *)
Theorem handled_set_once :
  (∀ c m s, handled (NewJob c m s) = false)
  ∧ (∀ ops j tr,
       (changes false true (handled_history ops j tr) ≤ 1)%nat
       ∧ changes true false (handled_history ops j tr) = 0%nat)
  ∧ (∀ op j tr r j' tr',
       run op j tr = (r, j', tr') → handled j = false → handled j' = true →
       ∃ req, terminal_request req ∧ tr' = tr ++ [Sent req]
              ∧ sqs.Err (svc j tr req) = None)
  ∧ (∀ op j tr r j' tr' req e,
       run op j tr = (r, j', tr') → tr' = tr ++ [Sent req] →
       sqs.Err (svc j tr req) = Some e →
       r = Ret (Some e) ∧ j' = j ∧ handled j' = false)
  ∧ (∀ j tr e,
       handled j = false →
       sqs.Err (svc j tr (request_of callDelete j 0)) = Some e →
       Delete j tr
       = (Ret (Some e), j, tr ++ [Sent (request_of callDelete j 0)]))
  ∧ (∀ j tr secs id e,
       handled j = false → sqs.MessageId (msg j) = Some id →
       sqs.Err (svc j tr (request_of (callRelease secs) j 0)) = Some e →
       Release secs j tr
       = (Ret (Some e), j, tr ++ [Sent (request_of (callRelease secs) j 0)])).
Proof.
  split; [done |].
  split; [intros; split; [apply handled_history_once
                         | apply handled_history_no_reset] |].
  split; [| split; [| split]].
  - intros op j tr r j' tr' Hrun Hh Hh'.
    destruct (run_inv _ _ _ _ _ _ Hrun)
      as [(-> & _) | (_ & t & Hreq & -> & _ & Hsent)]; [congruence |].
    cbn zeta in Hsent. exists (request_of op j t).
    destruct (sqs.Err _); [| done].
    destruct Hsent as [_ ->]. congruence.
  - intros op j tr r j' tr' req e Hrun Htr He.
    destruct (run_inv _ _ _ _ _ _ Hrun)
      as [(_ & -> & _) | (Hh & t & Hreq & -> & _ & Hsent)].
    { apply (f_equal length) in Htr. rewrite length_app in Htr.
      cbn in Htr. lia. }
    apply app_inv_head in Htr. injection Htr as Hr.
    cbn zeta in Hsent. rewrite Hr, He in Hsent.
    destruct Hsent as [-> ->]. done.
  - intros j tr e Hh He. rewrite Delete_unfold, Hh. cbn zeta. by rewrite He.
  - intros j tr secs id e Hh Hid He. rewrite Release_unfold, Hh.
    unfold ID, deref. rewrite Hid. cbv beta iota zeta. by rewrite He.
Qed.

Lemma handled_set_once_witness :
  Delete (NewJob defaultConfig emptyMessage erroredClient) []
  = (Ret (Some (transportError "i just errored")),
     NewJob defaultConfig emptyMessage erroredClient,
     [Sent (sqs.DeleteMessage "http://some/queue/url" None)]).
Proof.
  apply (proj1 (proj2 (proj2 (proj2 (proj2 handled_set_once))))).
  - reflexivity.
  - reflexivity.
Defined.

(** ** The number of tries *)

(** [Tries] on a message whose sender-set attribute of the name of the
    delivery count, if there is one, has a string value. *)
Lemma Tries_unfold (j : sqsJob) :
  (∀ a, sqs.MessageAttributes (msg j)
          !! sqs.MessageSystemAttributeNameApproximateReceiveCount = Some a →
        is_Some (sqs.StringValue a)) →
  Tries j =
    match reported_count (msg j) with
    | None =>
        Ret (0, Some (errorsNew "failed to get recieve count off sqs message"))
    | Some count =>
        let '(tries, err) := strconv.ParseInt count in
        Ret (if tries >? 0 then tries - 1 else tries, err)
    end.
Proof.
  intros Hstr. unfold Tries, Attribute, reported_count.
  destruct (sqs.MessageAttributes (msg j) !! _) as [a |] eqn:Ha.
  - destruct (Hstr a eq_refl) as [s Hs]. rewrite Hs. reflexivity.
  - destruct (sqs.Attributes (msg j) !! _); reflexivity.
Qed.

(** C4 (as amended). [Tries] reads the delivery count through
    [Attribute]: the sender-set attribute of that name if there is one,
    the attribute set by the queue otherwise. Provided such a sender-set
    attribute has a string value, [Tries] fails with an error when no
    count is found and when the count found is not a decimal [int64];
    otherwise, for a count [n], it returns [n - 1] when [n > 0] and [n]
    itself when [n <= 0]. So for every count [n >= 0], written in decimal,
    the result is [max (n - 1) 0], which is not negative, and a count of 3
    gives 2. *)
Theorem Tries_reported_count (j : sqsJob) :
  (∀ a, sqs.MessageAttributes (msg j)
          !! sqs.MessageSystemAttributeNameApproximateReceiveCount = Some a →
        is_Some (sqs.StringValue a)) →
  (reported_count (msg j) = None →
   Tries j
   = Ret (0, Some (errorsNew "failed to get recieve count off sqs message")))
  ∧ (∀ s v e, reported_count (msg j) = Some s →
       strconv.ParseInt s = (v, Some e) →
       ∃ v', Tries j = Ret (v', Some e))
  ∧ (∀ s n, reported_count (msg j) = Some s →
       strconv.ParseInt s = (n, None) →
       Tries j = Ret (if n >? 0 then n - 1 else n, None))
  ∧ (∀ n, 0 ≤ n < 2 ^ 63 → reported_count (msg j) = Some (pretty n) →
       Tries j = Ret (Z.max (n - 1) 0, None) ∧ 0 ≤ Z.max (n - 1) 0)
  ∧ (reported_count (msg j) = Some "3"%string → Tries j = Ret (2, None)).
Proof.
  intros Hstr. rewrite (Tries_unfold j Hstr).
  split; [by intros -> |].
  split; [intros s v e -> ->; eauto |].
  split; [by intros s n -> -> |].
  split; [| by intros ->].
  intros n Hn ->. rewrite strconv_facts.ParseInt_pretty by lia.
  split; [| lia]. rewrite Z.gtb_ltb.
  destruct (Z.ltb_spec 0 n); do 2 f_equal; lia.
Qed.

Lemma Tries_reported_count_witness :
  Tries (NewJob defaultConfig (message_with_count "3") okClient)
  = Ret (2, None).
Proof.
  apply (Tries_reported_count
           (NewJob defaultConfig (message_with_count "3") okClient)).
  - intros a Ha. vm_compute in Ha. discriminate Ha.
  - vm_compute. reflexivity.
Defined.

(** C4 as written fails for a count below zero: the queue attribute "-5"
    is a decimal [int64], and [Tries] returns -5, not [max (-5 - 1) 0]. *)
Lemma Tries_negative_count :
  ¬ (∀ j : sqsJob,
       match sqs.Attributes (msg j)
               !! sqs.MessageSystemAttributeNameApproximateReceiveCount with
       | None => ∃ v e, Tries j = Ret (v, Some e)
       | Some s =>
           match strconv.ParseInt s with
           | (_, Some _) => ∃ v e, Tries j = Ret (v, Some e)
           | (n, None) =>
               Tries j = Ret (Z.max (n - 1) 0, None) ∧ 0 ≤ Z.max (n - 1) 0
           end
       end).
Proof.
  intros H.
  specialize (H (NewJob defaultConfig (message_with_count "-5") okClient)).
  vm_compute in H. destruct H as [H _]. discriminate H.
Qed.

(** The count is taken from the sender-set attributes first: a sender that
    sets an attribute of that name to "7" hides the 3 of the queue. *)
Example Tries_sender_set_count :
  Tries (NewJob defaultConfig
           {| sqs.MessageId := Some "123"%string;
              sqs.Body := None;
              sqs.ReceiptHandle := None;
              sqs.MessageAttributes :=
                {[ sqs.MessageSystemAttributeNameApproximateReceiveCount :=
                     {| sqs.StringValue := Some "7"%string |} ]};
              sqs.Attributes :=
                {[ sqs.MessageSystemAttributeNameApproximateReceiveCount :=
                     "3"%string ]} |}
           okClient)
  = Ret (6, None).
Proof. vm_compute. reflexivity. Qed.

(** ** [Backoff] *)

(** C5. On a job with an identifier whose number of tries is [t],
    [Backoff()] is the call [Release(BackoffCalc(t))]: it returns what that
    call returns and does to the job and to the client what that call
    does; on a job that is not handled yet, one change-visibility request
    goes out, for [BackoffCalc(t)] seconds passed through the bounds of
    [Release]. When [Tries] fails, and so when the message has no delivery
    count, [Backoff()] returns the error of [Tries] and leaves the job and
    the history untouched: [Release] is not called and nothing is sent. *)
Theorem Backoff_calls_Release (j : sqsJob) (tr : list event) :
  (∀ t id, Tries j = Ret (t, None) → sqs.MessageId (msg j) = Some id →
     Backoff j tr = Release (BackoffCalc (Job (cfg j)) t) j tr
     ∧ (handled j = false →
        ∃ r j', Backoff j tr
                = (r, j',
                   tr ++ [Sent (sqs.ChangeMessageVisibility (QueueURL (cfg j))
                                  (sqs.ReceiptHandle (msg j))
                                  (visibility (Job (cfg j))
                                     (BackoffCalc (Job (cfg j)) t)))])))
  ∧ (∀ v e, Tries j = Ret (v, Some e) →
       Backoff j tr = (Ret (Some e), j, tr))
  ∧ (sqs.MessageAttributes (msg j)
       !! sqs.MessageSystemAttributeNameApproximateReceiveCount = None →
     sqs.Attributes (msg j)
       !! sqs.MessageSystemAttributeNameApproximateReceiveCount = None →
     Backoff j tr
     = (Ret (Some (errorsNew "failed to get recieve count off sqs message")),
        j, tr)).
Proof.
  split; [| split].
  - intros t id HT Hid.
    assert (Backoff j tr = Release (BackoffCalc (Job (cfg j)) t) j tr) as HB.
    { rewrite Backoff_unfold, HT. unfold ID. by rewrite Hid. }
    split; [exact HB |]. intros Hh. rewrite HB.
    exact (Release_sends j tr _ id Hh Hid).
  - intros v e HT. by rewrite Backoff_unfold, HT.
  - intros HMA HA. rewrite Backoff_unfold. unfold Tries, Attribute.
    by rewrite HMA, HA.
Qed.

Lemma Backoff_calls_Release_witness :
  Backoff (NewJob defaultConfig (message_with_count "3") okClient) []
  = Release 38 (NewJob defaultConfig (message_with_count "3") okClient) [].
Proof.
  apply (proj1 (Backoff_calls_Release
                  (NewJob defaultConfig (message_with_count "3") okClient) [])
           2 "123"%string).
  - vm_compute. reflexivity.
  - reflexivity.
Defined.

(** The first case of the test of [Backoff]: on [sqs.Message{}] it fails
    and sends nothing. *)
Example Backoff_without_count :
  Backoff (NewJob defaultConfig emptyMessage okClient) []
  = (Ret (Some (errorsNew "failed to get recieve count off sqs message")),
     NewJob defaultConfig emptyMessage okClient, []).
Proof. reflexivity. Qed.

(** ** [Attribute] *)

(** C10. When the sender-set attributes have an entry for the key and
    that entry has no string value, [Attribute] panics on the nil
    dereference, whatever the attributes set by the queue hold: it does
    not go on to them and does not return [("", false)]. It returns
    exactly when the entry for the key, if there is one, has a string
    value. *)
Theorem Attribute_nil_StringValue (j : sqsJob) (key : string) :
  (∀ a, sqs.MessageAttributes (msg j) !! key = Some a →
        sqs.StringValue a = None →
        Attribute j key = Panic nilDereference)
  ∧ ((∃ r, Attribute j key = Ret r) ↔
     (∀ a, sqs.MessageAttributes (msg j) !! key = Some a →
           is_Some (sqs.StringValue a))).
Proof.
  unfold Attribute. split.
  - intros a -> ->. reflexivity.
  - destruct (sqs.MessageAttributes (msg j) !! key) as [a |]; split.
    + intros [r Hr] a' [= <-].
      destruct (sqs.StringValue a); [done | discriminate Hr].
    + intros H. destruct (H a eq_refl) as [v ->]. cbn. eauto.
    + intros _ a' [=].
    + intros _. destruct (sqs.Attributes (msg j) !! key); eauto.
Qed.

Lemma Attribute_nil_StringValue_witness :
  Attribute (NewJob defaultConfig binaryFooMessage okClient) "foo"
  = Panic nilDereference.
Proof.
  apply (proj1 (Attribute_nil_StringValue
                  (NewJob defaultConfig binaryFooMessage okClient) "foo")
           {| sqs.StringValue := None |}).
  - vm_compute. reflexivity.
  - reflexivity.
Defined.

(** ** The default backoff *)

(** On the range where the model is the code, and for a draw from 0 to 29,
    the default [BackoffCalc] is [try^3 + 15 + (draw * try + 1)]: the
    product binds tighter than the sum, so 1 is added to the product
    instead of to [try]. *)
Lemma default_BackoffCalc_formula (Int63n : Z → Z) (url : string) (n try : Z) :
  0 ≤ try < 2 ^ 17 → 0 ≤ Int63n try < 30 →
  BackoffCalc (Job (NewDefaultConfig Int63n url n)) try
  = try ^ 3 + 15 + (Int63n try * try + 1).
Proof.
  intros Ht Hr. cbn [BackoffCalc Job NewDefaultConfig].
  assert (0 ≤ Int63n try * try < 30 * 2 ^ 17) by nia.
  rewrite (int64_small (Int63n try * try)) by lia.
  rewrite int64_small by lia. reflexivity.
Qed.

(** C9. The claim follows the comment of the code, which gives the jitter
    as [rand(30) * (retry_count + 1)]; the code computes
    [rand.Int63n(30)*try + 1]. At attempt 0 the default backoff is 16
    whatever is drawn, while the formula of the comment gives [15 + r] for
    a draw [r]: there is no random spread at attempt 0. *)
Theorem default_BackoffCalc_at_zero :
  ∀ (Int63n : Z → Z) (url : string) (n : Z),
    BackoffCalc (Job (NewDefaultConfig Int63n url n)) 0 = 16
    ∧ ∀ r, documented_backoff r 0 = 15 + r.
Proof.
  intros Int63n url n. split.
  - cbn [BackoffCalc Job NewDefaultConfig]. rewrite Z.mul_0_r. reflexivity.
  - intros r. unfold documented_backoff. lia.
Qed.

(** ** The accounting of one handler invocation *)

(** C8 (as amended). After one invocation of the handler: a panic with
    a value that is not nil adds one to the panic counter and one to the
    handler-error counter, and nothing to the processed counter; a panic
    with nil, which [recover()] returns as nil, is counted nowhere. When
    the handler returns, the panic counter stays; the handler-error
    counter gets one for an error returned and one more for a job that is
    not handled; the processed counter gets one exactly when the job is
    handled. The counters of the receive calls stay. *)
Theorem handle_accounting (ctx : Context) (handler : HandlerFunc)
    (j : sqsJob) (s : world) :
  let m := metrics s in
  let m' := metrics (handle ctx handler j s) in
  receiveErrorTotal m' = receiveErrorTotal m
  ∧ receivedTotal m' = receivedTotal m
  ∧ match handler ctx j (trace s) with
    | (Panicked (Some _), _, _) =>
        jobPanicTotal m' = jobPanicTotal m + 1
        ∧ jobErrorTotal m' = jobErrorTotal m + 1
        ∧ jobProcessedTotal m' = jobProcessedTotal m
    | (Panicked None, _, _) =>
        jobPanicTotal m' = jobPanicTotal m
        ∧ jobErrorTotal m' = jobErrorTotal m
        ∧ jobProcessedTotal m' = jobProcessedTotal m
    | (Returned err, j', _) =>
        jobPanicTotal m' = jobPanicTotal m
        ∧ jobErrorTotal m'
          = jobErrorTotal m
            + (match err with Some _ => 1 | None => 0 end)
            + (if Handled j' then 0 else 1)
        ∧ jobProcessedTotal m'
          = jobProcessedTotal m + (if Handled j' then 1 else 0)
    end.
Proof.
  unfold handle.
  destruct (handler ctx j (trace s)) as [[[[e |] | [v |]] j'] tr];
    unfold Handled; try destruct (handled j'); cbn; lia.
Qed.

(** C8 as written fails for the handler that calls [panic(nil)]: the
    deferred function recovers nil and counts nothing, neither a panic nor
    a handler error. *)
Lemma nil_panic_not_counted :
  ¬ (∀ (ctx : Context) (handler : HandlerFunc) (j : sqsJob) (s : world),
       match handler ctx j (trace s) with
       | (Panicked _, _, _) =>
           jobPanicTotal (metrics (handle ctx handler j s))
           = jobPanicTotal (metrics s) + 1
           ∧ jobErrorTotal (metrics (handle ctx handler j s))
             = jobErrorTotal (metrics s) + 1
       | (Returned _, _, _) => True
       end).
Proof.
  intros H.
  specialize (H background nilPanicHandler
                (NewJob defaultConfig message123 okClient) start).
  cbn in H. destruct H as [H _]. discriminate H.
Qed.

(** ** The consumer loop *)

Lemma receive_iteration_failure (w : sqsWorker) (ctx : Context)
    (handler : HandlerFunc) (s : world) (e : error) :
  ctx (trace s) = false →
  sqs.Err (worker_svc w (trace s) (ReceiveMessageInput (worker_cfg w)))
  = Some e →
  receive_iteration w ctx handler s
  = let failed := count receiveErrorTotal_Inc
                    (record (Sent (ReceiveMessageInput (worker_cfg w))) s) in
    if RunOnce (Consumer (worker_cfg w)) then (Stopped, failed)
    else (Polling,
          record (Slept (RetrievalErrWait (Consumer (worker_cfg w)))) failed).
Proof.
  intros Hctx He. unfold receive_iteration. rewrite Hctx. cbn zeta.
  change (trace (record _ s)) with (trace s ++ [Sent (ReceiveMessageInput (worker_cfg w))]).
  by rewrite He.
Qed.

(** A loop that is not in run-once mode, whose context is never cancelled
    and whose receive calls all fail, is still polling after any number of
    iterations; it has then sent that many receive requests, each followed
    by a sleep of [RetrievalErrWait]. *)
Lemma receive_retries (w : sqsWorker) (ctx : Context) (handler : HandlerFunc)
    (n : nat) (s : world) :
  RunOnce (Consumer (worker_cfg w)) = false →
  (∀ h, ctx h = false) →
  (∀ h, sqs.Err (worker_svc w h (ReceiveMessageInput (worker_cfg w))) ≠ None) →
  ∃ s', receive n w ctx handler s = (Polling, s')
        ∧ trace s'
          = trace s
            ++ concat (replicate n
                 [Sent (ReceiveMessageInput (worker_cfg w));
                  Slept (RetrievalErrWait (Consumer (worker_cfg w)))])
        ∧ receiveErrorTotal (metrics s')
          = receiveErrorTotal (metrics s) + Z.of_nat n.
Proof.
  intros Honce Hctx Hfail. revert s.
  induction n as [| n IH]; intros s.
  - exists s. cbn. rewrite app_nil_r. split; [done |]. split; [done | lia].
  - destruct (sqs.Err (worker_svc w (trace s)
                         (ReceiveMessageInput (worker_cfg w)))) as [e |] eqn:He;
      [| by destruct (Hfail (trace s))].
    cbn [receive].
    rewrite (receive_iteration_failure w ctx handler s e (Hctx _) He), Honce.
    cbn zeta.
    destruct (IH (record (Slept (RetrievalErrWait (Consumer (worker_cfg w))))
                    (count receiveErrorTotal_Inc
                       (record (Sent (ReceiveMessageInput (worker_cfg w))) s))))
      as (s' & Hrun & Htr & Hm).
    exists s'. split; [exact Hrun |]. split.
    + rewrite Htr. cbn. rewrite <- !app_assoc. reflexivity.
    + rewrite Hm. cbn. lia.
Qed.

(** C7. When the receive call of an iteration fails: in run-once mode
    the loop has stopped after that iteration, whatever the number of
    iterations it is given, having sent the one receive request and slept
    not at all; otherwise it sleeps for [RetrievalErrWait] and goes back to
    the top of the loop, and as long as receiving fails it goes on like
    this, one receive request and one sleep per round. *)
Theorem receive_failure (w : sqsWorker) (ctx : Context)
    (handler : HandlerFunc) (s : world) (e : error) :
  ctx (trace s) = false →
  sqs.Err (worker_svc w (trace s) (ReceiveMessageInput (worker_cfg w)))
  = Some e →
  let req := ReceiveMessageInput (worker_cfg w) in
  let wait := RetrievalErrWait (Consumer (worker_cfg w)) in
  (RunOnce (Consumer (worker_cfg w)) = true →
   ∀ fuel, ∃ s', receive (S fuel) w ctx handler s = (Stopped, s')
                 ∧ trace s' = trace s ++ [Sent req])
  ∧ (RunOnce (Consumer (worker_cfg w)) = false →
     (∃ s', receive_iteration w ctx handler s = (Polling, s')
            ∧ trace s' = trace s ++ [Sent req; Slept wait]
            ∧ ∀ fuel, receive (S fuel) w ctx handler s
                      = receive fuel w ctx handler s')
     ∧ ((∀ h, ctx h = false) →
        (∀ h, sqs.Err (worker_svc w h req) ≠ None) →
        ∀ n, ∃ s', receive n w ctx handler s = (Polling, s')
                   ∧ trace s'
                     = trace s ++ concat (replicate n [Sent req; Slept wait]))).
Proof.
  intros Hctx He req wait.
  pose proof (receive_iteration_failure w ctx handler s e Hctx He) as Hit.
  cbn zeta in Hit. split.
  - intros Honce fuel. rewrite Honce in Hit. eexists. split.
    + cbn [receive]. rewrite Hit. reflexivity.
    + reflexivity.
  - intros Honce. rewrite Honce in Hit. split.
    + eexists. split; [exact Hit |]. split.
      * cbn. rewrite <- app_assoc. reflexivity.
      * intros fuel. cbn [receive]. rewrite Hit. reflexivity.
    + intros Hnever Hfail n.
      destruct (receive_retries w ctx handler n s Honce Hnever Hfail)
        as (s' & Hrun & Htr & _).
      eauto.
Qed.

Lemma receive_failure_witness :
  ∃ s', receive 3 {| worker_cfg := runOnceConfig; worker_svc := erroredClient |}
          background idleHandler start
        = (Stopped, s')
        ∧ trace s' = [] ++ [Sent (sqs.ReceiveMessage "http://some/queue/url"
                                    1 600 20)].
Proof.
  apply (proj1 (receive_failure
                  {| worker_cfg := runOnceConfig; worker_svc := erroredClient |}
                  background idleHandler start
                  (transportError "i just errored") eq_refl eq_refl)).
  reflexivity.
Defined.

(** The loop in continuous mode on the same failing client: after two
    rounds it is still polling and has slept twice for 30 seconds. *)
Example receive_two_failures :
  let w := {| worker_cfg := defaultConfig; worker_svc := erroredClient |} in
  ∃ s', receive 2 w background idleHandler start = (Polling, s')
        ∧ trace s'
          = [Sent (sqs.ReceiveMessage "http://some/queue/url" 10 600 20);
             Slept (30 * Second);
             Sent (sqs.ReceiveMessage "http://some/queue/url" 10 600 20);
             Slept (30 * Second)]
        ∧ receiveErrorTotal (metrics s') = 2.
Proof. eexists. split; [reflexivity |]. split; reflexivity. Qed.

(** ** Malformed messages in a batch *)

(** When every message of the batch has an identifier, the dispatch of the
    batch returns, whatever the handler does with the jobs: errors and
    panics of the handler are recovered in its goroutine and go no
    further. *)
Lemma handleResponse_returns (w : sqsWorker) (ctx : Context)
    (msgs : list sqs.Message) (handler : HandlerFunc) (s : world) :
  Forall (λ m, is_Some (sqs.MessageId m)) msgs →
  ∃ s', handleResponse w ctx msgs handler s = (Ret tt, s').
Proof.
  intros Hids. revert s.
  induction Hids as [| m rest [id Hid] _ IH]; intros s; cbn [handleResponse].
  - eauto.
  - unfold ID, NewJob. cbn [msg]. rewrite Hid. cbn [deref]. apply IH.
Qed.

(** The first message without an identifier ends the dispatch with the
    panic of [j.ID()], in the loop itself. *)
Lemma handleResponse_panics (w : sqsWorker) (ctx : Context)
    (m : sqs.Message) (rest : list sqs.Message) (handler : HandlerFunc)
    (s : world) :
  sqs.MessageId m = None →
  handleResponse w ctx (m :: rest) handler s = (Panic nilDereference, s).
Proof.
  intros Hid. cbn [handleResponse]. unfold ID, NewJob. cbn [msg].
  by rewrite Hid.
Qed.

(** A message without body and attributes, or with a binary attribute,
    costs the handler an error or a panic that is counted; the loop goes
    on to its normal end. *)
Example receive_message_without_body :
  let w := {| worker_cfg := runOnceConfig;
              worker_svc := receiveClient message123 |} in
  ∃ s', receive 1 w background readingHandler start = (Stopped, s')
        ∧ jobProcessedTotal (metrics s') = 1.
Proof. eexists. split; reflexivity. Qed.

Example receive_message_with_binary_attribute :
  let w := {| worker_cfg := runOnceConfig;
              worker_svc := receiveClient binaryFooMessage |} in
  ∃ s', receive 1 w background readingHandler start = (Stopped, s')
        ∧ jobPanicTotal (metrics s') = 1
        ∧ jobErrorTotal (metrics s') = 1.
Proof. eexists. split; [| split]; reflexivity. Qed.

(** The test of the job that is not handled: the handler does nothing,
    and the job is counted as a handler error. *)
Example receive_unhandled_job :
  let w := {| worker_cfg := runOnceConfig;
              worker_svc := receiveClient message123 |} in
  ∃ s', receive 1 w background idleHandler start = (Stopped, s')
        ∧ jobErrorTotal (metrics s') = 1
        ∧ jobProcessedTotal (metrics s') = 0.
Proof. eexists. split; [| split]; reflexivity. Qed.

(** C6. The claim does not hold for a message without identifier: when
    the client answers a receive with [sqs.Message{}], the loop evaluates
    [j.ID()] for its log line before it starts the goroutine with the
    [recover], and the nil dereference leaves the loop as a panic, with any
    handler and in any mode. *)
Theorem receive_crashes_without_MessageId :
  ∀ (c : Config) (handler : HandlerFunc) (fuel : nat),
    receive (S fuel)
      {| worker_cfg := c; worker_svc := receiveClient emptyMessage |}
      background handler start
    = (Crashed nilDereference,
       {| trace := [Sent (ReceiveMessageInput c)];
          metrics := receivedTotal_Add 1 noMetrics |}).
Proof.
  intros c handler fuel. cbn [receive]. unfold receive_iteration.
  cbn [background start trace worker_cfg worker_svc receiveClient
       ReceiveMessageInput sqs.Err sqs.Messages length Nat.eqb].
  rewrite handleResponse_panics by reflexivity. reflexivity.
Qed.

(** * Further properties of the code *)

(** ** Reading a message *)

(** X1. [Attribute] finds a key exactly when one of the two attribute maps
    has it: with a sender-set string value it returns that value, whatever
    the queue-set attributes hold; with no sender-set entry it returns the
    queue-set value; and it reports [ok = false] (with the empty string)
    exactly when neither map has the key. *)
Theorem Attribute_lookup (j : sqsJob) (key : string) :
  (∀ v, sqs.MessageAttributes (msg j) !! key
        = Some {| sqs.StringValue := Some v |} →
        Attribute j key = Ret (v, true))
  ∧ (∀ a, sqs.MessageAttributes (msg j) !! key = None →
          sqs.Attributes (msg j) !! key = Some a →
          Attribute j key = Ret (a, true))
  ∧ (∀ v, Attribute j key = Ret (v, false) ↔
          v = ""%string
          ∧ sqs.MessageAttributes (msg j) !! key = None
          ∧ sqs.Attributes (msg j) !! key = None).
Proof.
  unfold Attribute. split; [| split].
  - intros v ->. reflexivity.
  - intros a -> ->. reflexivity.
  - intros v.
    destruct (sqs.MessageAttributes (msg j) !! key) as [[[s |]] |]; cbn.
    + split; [intros [=] | intros (_ & [=] & _)].
    + split; [intros [=] | intros (_ & [=] & _)].
    + destruct (sqs.Attributes (msg j) !! key).
      * split; [intros [=] | intros (_ & _ & [=])].
      * split; [intros [= <-]; done | intros (-> & _); done].
Qed.

Lemma Attribute_lookup_witness :
  Attribute (NewJob defaultConfig
               {| sqs.MessageId := None; sqs.Body := None;
                  sqs.ReceiptHandle := None;
                  sqs.MessageAttributes :=
                    {[ "foo"%string := {| sqs.StringValue := Some "bar"%string |} ]};
                  sqs.Attributes := {[ "foo"%string := "baz"%string ]} |}
               okClient) "foo"
  = Ret ("bar"%string, true).
Proof.
  apply (proj1 (Attribute_lookup _ "foo")). vm_compute. reflexivity.
Defined.

(** X2. [Body] returns a body without error exactly when the message has
    a body that is not empty, and then it is that body; in every other
    case (no body, empty body) it returns the empty string with an
    error. *)
Theorem Body_nonempty (j : sqsJob) :
  (∀ b, Body j = (b, None) ↔ sqs.Body (msg j) = Some b ∧ b ≠ ""%string)
  ∧ (∀ b e, Body j = (b, Some e) →
            b = ""%string ∧ e = errorsNew "job body is empty"
            ∧ (sqs.Body (msg j) = None ∨ sqs.Body (msg j) = Some ""%string)).
Proof.
  unfold Body, aws_StringValue.
  destruct (sqs.Body (msg j)) as [[| c rest] |]; cbn; split.
  - intros b. split; [intros [=] | intros [[= <-] ?]; done].
  - intros b e [= <- <-]. auto.
  - intros b. split; [intros [= <-]; done | intros [[= <-] _]; done].
  - intros b e [=].
  - intros b. split; [intros [=] | intros [[=] _]].
  - intros b e [= <- <-]. auto.
Qed.

Lemma Body_nonempty_witness :
  Body (NewJob defaultConfig binaryFooMessage okClient)
  = ("payload"%string, None).
Proof.
  apply (proj1 (Body_nonempty _)). split; [reflexivity | discriminate].
Defined.

(** ** The debug modes *)

(** X3. [RunOnce()] and [RunSlowly(pause)] each force one consumer and a
    batch of one message and switch the other mode off; called one after
    the other, the last call wins, as if the first had not been made; the
    job settings, the queue URL and the other retrieval settings are kept.
    After either, run-once and a pause are never both set. *)
Theorem Config_debug_modes (c : Config) (pause : Z) :
  let once := Consumer (Config_RunOnce c) in
  let slowly := Consumer (Config_RunSlowly pause c) in
  (Count once = 1 ∧ RetrievalMaxNumberOfMessages once = 1
   ∧ RunOnce once = true ∧ RunSlowly once = 0)
  ∧ (Count slowly = 1 ∧ RetrievalMaxNumberOfMessages slowly = 1
     ∧ RunOnce slowly = false ∧ RunSlowly slowly = pause)
  ∧ Config_RunOnce (Config_RunSlowly pause c) = Config_RunOnce c
  ∧ Config_RunSlowly pause (Config_RunOnce c) = Config_RunSlowly pause c
  ∧ (∀ c', c' = Config_RunOnce c ∨ c' = Config_RunSlowly pause c →
       ¬ (RunOnce (Consumer c') = true ∧ RunSlowly (Consumer c') > 0)
       ∧ Job c' = Job c ∧ QueueURL c' = QueueURL c
       ∧ RetrievalErrWait (Consumer c') = RetrievalErrWait (Consumer c)
       ∧ RetrievalVisibilityTimeout (Consumer c')
         = RetrievalVisibilityTimeout (Consumer c)
       ∧ RetrievalWaitTimeSeconds (Consumer c')
         = RetrievalWaitTimeSeconds (Consumer c)).
Proof.
  cbn zeta. split; [done |]. split; [done |]. split; [done |]. split; [done |].
  intros c' [-> | ->]; cbn; (split; [| done]); intros [? ?]; [lia | done].
Qed.

Lemma Config_debug_modes_witness :
  Job (Config_RunOnce (Config_RunSlowly (5 * Second) defaultConfig))
  = Job defaultConfig.
Proof.
  destruct (proj2 (proj2 (proj2 (proj2
              (Config_debug_modes (Config_RunSlowly (5 * Second) defaultConfig)
                 0))))
              (Config_RunOnce (Config_RunSlowly (5 * Second) defaultConfig))
              (or_introl eq_refl))
    as (_ & HJ & _).
  exact HJ.
Defined.

(** The configuration of the loop examples is the default one after
    [cfg.RunOnce()]. *)
Example Config_RunOnce_defaultConfig :
  Config_RunOnce defaultConfig = runOnceConfig.
Proof. reflexivity. Qed.

(** ** More on what [Release] sends *)

Lemma visibility_le_Max (c : JobConfig) (x : Z) :
  visibility c x ≤ MaxVisibilityTimeout c.
Proof.
  unfold visibility. rewrite twelve_hours, !Z.gtb_ltb, Z.geb_leb.
  destruct (Z.ltb_spec x (MinVisibilityTimeout c));
    match goal with
    | |- context [?a <? ?b] => destruct (Z.ltb_spec a b)
    end;
    match goal with
    | |- context [?a <=? ?b] => destruct (Z.leb_spec a b)
    end; lia.
Qed.

Lemma visibility_mono (c : JobConfig) (x y : Z) :
  x ≤ y → visibility c x ≤ visibility c y.
Proof.
  intros Hxy. unfold visibility. rewrite twelve_hours, !Z.gtb_ltb, !Z.geb_leb.
  destruct (Z.ltb_spec x (MinVisibilityTimeout c));
    destruct (Z.ltb_spec y (MinVisibilityTimeout c));
    repeat match goal with
           | |- context [?a <? ?b] => destruct (Z.ltb_spec a b)
           end;
    repeat match goal with
           | |- context [?a <=? ?b] => destruct (Z.leb_spec a b)
           end; lia.
Qed.

(** X4. Under every configuration, also one whose bounds are out of order
    or above 12 hours: the timeout that [Release] sends is never above
    [MaxVisibilityTimeout], it is below 43200 as soon as the maximum is at
    most 43200, and asking for more never gives less. *)
Theorem Release_bounded_monotone (j : sqsJob) (tr : list event) (x y : Z)
    (id : string) :
  handled j = false →
  sqs.MessageId (msg j) = Some id →
  x ≤ y →
  ∃ rx jx vx ry jy vy,
    Release x j tr
    = (rx, jx, tr ++ [Sent (sqs.ChangeMessageVisibility (QueueURL (cfg j))
                              (sqs.ReceiptHandle (msg j)) vx)])
    ∧ Release y j tr
      = (ry, jy, tr ++ [Sent (sqs.ChangeMessageVisibility (QueueURL (cfg j))
                                (sqs.ReceiptHandle (msg j)) vy)])
    ∧ vx ≤ vy
    ∧ vy ≤ MaxVisibilityTimeout (Job (cfg j))
    ∧ (MaxVisibilityTimeout (Job (cfg j)) ≤ 43200 → vy < 43200).
Proof.
  intros Hh Hid Hxy.
  destruct (Release_sends j tr x id Hh Hid) as (rx & jx & Hx).
  destruct (Release_sends j tr y id Hh Hid) as (ry & jy & Hy).
  exists rx, jx, (visibility (Job (cfg j)) x), ry, jy, (visibility (Job (cfg j)) y).
  split; [exact Hx |]. split; [exact Hy |].
  split; [by apply visibility_mono |].
  split; [apply visibility_le_Max |].
  intros Hmax. pose proof (visibility_le_Max (Job (cfg j)) y) as Hle.
  unfold visibility in *. rewrite twelve_hours, !Z.gtb_ltb, Z.geb_leb in *.
  destruct (Z.ltb_spec y (MinVisibilityTimeout (Job (cfg j))));
    match goal with
    | |- context [?a <? ?b] => destruct (Z.ltb_spec a b)
    end;
    match goal with
    | |- context [?a <=? ?b] => destruct (Z.leb_spec a b)
    end; lia.
Qed.

Lemma Release_bounded_monotone_witness :
  ∃ rx jx vx ry jy vy,
    Release 5 (NewJob max40Config message123 okClient) []
    = (rx, jx, [] ++ [Sent (sqs.ChangeMessageVisibility
                              "http://some/queue/url" None vx)])
    ∧ Release 50 (NewJob max40Config message123 okClient) []
      = (ry, jy, [] ++ [Sent (sqs.ChangeMessageVisibility
                                "http://some/queue/url" None vy)])
    ∧ vx ≤ vy ∧ vy ≤ 40.
Proof.
  destruct (Release_bounded_monotone (NewJob max40Config message123 okClient)
              [] 5 50 "123" eq_refl eq_refl)
    as (rx & jx & vx & ry & jy & vy & Hx & Hy & Hle & Hmax & _); [lia |].
  exists rx, jx, vx, ry, jy, vy. auto.
Defined.

(** ** Writing on a message without identifier *)

(** X5. On a job that is not handled and whose message has no identifier:
    when the request fails, [Delete] and [Release] (asked for a number of
    seconds within the bounds) return the error as on any other message;
    when the request succeeds, they panic on the identifier of their last
    log line, after the request has gone out and the job has been marked
    as handled. A [Release] that has to write a bounds log line panics
    before anything is sent. *)
Theorem write_without_MessageId (j : sqsJob) (tr : list event) (secs : Z) :
  handled j = false →
  sqs.MessageId (msg j) = None →
  let del := request_of callDelete j 0 in
  let rel := request_of (callRelease secs) j 0 in
  (∀ e, sqs.Err (svc j tr del) = Some e →
        Delete j tr = (Ret (Some e), j, tr ++ [Sent del]))
  ∧ (sqs.Err (svc j tr del) = None →
     Delete j tr = (Panic nilDereference, with_handled true j, tr ++ [Sent del]))
  ∧ (logs_bound (Job (cfg j)) secs = false →
     (∀ e, sqs.Err (svc j tr rel) = Some e →
           Release secs j tr = (Ret (Some e), j, tr ++ [Sent rel]))
     ∧ (sqs.Err (svc j tr rel) = None →
        Release secs j tr
        = (Panic nilDereference, with_handled true j, tr ++ [Sent rel])))
  ∧ (logs_bound (Job (cfg j)) secs = true →
     Release secs j tr = (Panic nilDereference, j, tr)).
Proof.
  intros Hh Hid del rel.
  assert (ID j = Panic nilDereference) as HID by (unfold ID; by rewrite Hid).
  rewrite Delete_unfold, Release_unfold, Hh, HID. cbn zeta. fold del rel.
  split; [by intros e -> |]. split; [by intros -> |]. split.
  - intros ->. split; [by intros e -> | by intros ->].
  - by intros ->.
Qed.

Lemma write_without_MessageId_witness :
  Delete (NewJob defaultConfig emptyMessage okClient) []
  = (Panic nilDereference,
     with_handled true (NewJob defaultConfig emptyMessage okClient),
     [] ++ [Sent (sqs.DeleteMessage "http://some/queue/url" None)]).
Proof.
  apply (proj1 (proj2 (write_without_MessageId
                         (NewJob defaultConfig emptyMessage okClient) [] 50
                         eq_refl eq_refl))).
  reflexivity.
Defined.

(** ** The default backoff within its bounds *)

(** X6. For every number of tries from 0 and below [2^17] and every draw from
    0 to 29, the default backoff lies between the two bounds that the test
    of the package checks for the tries 0 to 9: at least [try^3 + 15]
    (in fact at least [try^3 + 16]) and at most
    [try^3 + 15 + 30 * (try + 1)]. *)
Theorem default_BackoffCalc_bounds (Int63n : Z → Z) (url : string)
    (n try : Z) :
  0 ≤ try < 2 ^ 17 → 0 ≤ Int63n try < 30 →
  let backoff := BackoffCalc (Job (NewDefaultConfig Int63n url n)) try in
  try ^ 3 + 15 < backoff ∧ backoff ≤ try ^ 3 + 15 + 30 * (try + 1).
Proof.
  intros Ht Hr backoff. subst backoff.
  rewrite default_BackoffCalc_formula by done. nia.
Qed.

Lemma default_BackoffCalc_bounds_witness :
  9 ^ 3 + 15 < BackoffCalc (Job defaultConfig) 9
  ∧ BackoffCalc (Job defaultConfig) 9 ≤ 9 ^ 3 + 15 + 30 * (9 + 1).
Proof.
  apply (default_BackoffCalc_bounds (fun _ => 7) "http://some/queue/url" 1 9).
  - lia.
  - lia.
Defined.

(** X7. Under the default configuration, on a job that is not handled,
    has an identifier and a delivery count [count] from 0 to [2^17] set by
    the queue: [Backoff()] sends one change-visibility request for the
    default backoff of [max (count - 1) 0] tries, cut at 43199. The
    minimum of 10 seconds never applies, since the backoff is at least 16;
    from 36 tries on the request is always for 43199 seconds. *)
Theorem default_Backoff_sends (Int63n : Z → Z) (url : string) (n : Z)
    (j : sqsJob) (tr : list event) (id : string) (count : Z) :
  cfg j = NewDefaultConfig Int63n url n →
  handled j = false →
  sqs.MessageId (msg j) = Some id →
  sqs.MessageAttributes (msg j)
    !! sqs.MessageSystemAttributeNameApproximateReceiveCount = None →
  sqs.Attributes (msg j)
    !! sqs.MessageSystemAttributeNameApproximateReceiveCount
  = Some (pretty count) →
  0 ≤ count ≤ 2 ^ 17 →
  let tries := Z.max (count - 1) 0 in
  0 ≤ Int63n tries < 30 →
  ∃ r j' v,
    Backoff j tr
    = (r, j', tr ++ [Sent (sqs.ChangeMessageVisibility url
                             (sqs.ReceiptHandle (msg j)) v)])
    ∧ v = Z.min (tries ^ 3 + 15 + (Int63n tries * tries + 1)) 43199
    ∧ 16 ≤ v
    ∧ (36 ≤ tries → v = 43199).
Proof.
  intros Hcfg Hh Hid HMA HA Hcount tries Hdraw.
  assert (Tries j = Ret (tries, None)) as HT.
  { rewrite Tries_unfold by (intros a Ha; congruence).
    unfold reported_count. rewrite HMA, HA.
    rewrite strconv_facts.ParseInt_pretty by lia.
    rewrite Z.gtb_ltb. subst tries.
    destruct (Z.ltb_spec 0 count); do 2 f_equal; lia. }
  rewrite Backoff_unfold, HT. unfold ID. rewrite Hid. cbn [deref].
  destruct (Release_sends j tr (BackoffCalc (Job (cfg j)) tries) id Hh Hid)
    as (r & j' & ->).
  cbn [request_of]. rewrite Hcfg.
  assert (0 ≤ tries < 2 ^ 17) as Htries by lia.
  rewrite (default_BackoffCalc_formula Int63n url n tries Htries Hdraw).
  rewrite visibility_clamp
    by (cbn [MinVisibilityTimeout MaxVisibilityTimeout Job NewDefaultConfig];
        vm_compute; discriminate).
  eexists r, j', _. split; [reflexivity |].
  unfold clamp_then_ceiling. cbn [MinVisibilityTimeout MaxVisibilityTimeout
                                  Job NewDefaultConfig].
  change (Seconds (10 * Second)) with 10. rewrite twelve_hours.
  assert (0 ≤ tries ^ 3) by (apply Z.pow_nonneg; lia).
  assert (0 ≤ Int63n tries * tries) by nia.
  split; [lia |]. split; [lia |].
  intros H36.
  assert (36 ^ 3 ≤ tries ^ 3) by (apply Z.pow_le_mono_l; lia).
  lia.
Qed.

Lemma default_Backoff_sends_witness :
  ∃ r j' v,
    Backoff (NewJob defaultConfig (message_with_count "3") okClient) []
    = (r, j', [] ++ [Sent (sqs.ChangeMessageVisibility
                             "http://some/queue/url" None v)])
    ∧ v = 38.
Proof.
  destruct (default_Backoff_sends (fun _ => 7) "http://some/queue/url" 1
              (NewJob defaultConfig (message_with_count "3") okClient)
              [] "123" 3)
    as (r & j' & v & HB & Hv & _).
  - reflexivity.
  - reflexivity.
  - reflexivity.
  - vm_compute. reflexivity.
  - vm_compute. reflexivity.
  - lia.
  - lia.
  - exists r, j', v. split; [exact HB |]. rewrite Hv. reflexivity.
Defined.

(** ** Delivery counts that do not fit *)

(** X8. A delivery count that is a decimal number from [2^63] to
    [2^64 - 1], too large for an [int64], makes [Tries] fail with the
    range error of [strconv.ParseInt]; the number returned beside the
    error is [2^63 - 2], the largest [int64] less one. *)
Theorem Tries_count_out_of_range (j : sqsJob) (count : Z) :
  sqs.MessageAttributes (msg j)
    !! sqs.MessageSystemAttributeNameApproximateReceiveCount = None →
  sqs.Attributes (msg j)
    !! sqs.MessageSystemAttributeNameApproximateReceiveCount
  = Some (pretty count) →
  2 ^ 63 ≤ count ≤ 2 ^ 64 - 1 →
  Tries j
  = Ret (2 ^ 63 - 2, Some (NumError "ParseInt" (pretty count) ErrRange)).
Proof.
  intros HMA HA Hcount.
  rewrite Tries_unfold by (intros a Ha; congruence).
  unfold reported_count. rewrite HMA, HA.
  destruct count as [| p | p]; [lia | | lia].
  change (pretty (Z.pos p)) with (pretty_N_go (N.pos p) "").
  destruct (strconv_facts.pretty_N_go_head (N.pos p) ""
              (eq_refl : (0 ?= N.pos p)%N = Lt)) as (d & rest & Hd & Heq).
  pose proof (strconv_facts.digit_not_sign _ _
                (strconv_facts.digit_pretty_N_char d Hd)) as [Hplus Hminus].
  pose proof (strconv_facts.ParseUint_pretty_positive p) as HU.
  rewrite Heq in *. unfold strconv.ParseInt. rewrite Hplus, Hminus.
  rewrite HU by (unfold strconv.maxUint64; lia).
  destruct (Z.leb_spec (2 ^ 63) (Z.pos p)); [| lia].
  reflexivity.
Qed.

Lemma Tries_count_out_of_range_witness :
  Tries (NewJob defaultConfig (message_with_count "9223372036854775808")
           okClient)
  = Ret (2 ^ 63 - 2,
         Some (NumError "ParseInt" (pretty 9223372036854775808) ErrRange)).
Proof.
  apply (Tries_count_out_of_range _ 9223372036854775808).
  - vm_compute. reflexivity.
  - vm_compute. reflexivity.
  - lia.
Defined.

(** ** The loop in run-once mode and under cancellation *)

Lemma receive_iteration_RunOnce (w : sqsWorker) (ctx : Context)
    (handler : HandlerFunc) (s : world) :
  RunOnce (Consumer (worker_cfg w)) = true →
  fst (receive_iteration w ctx handler s) ≠ Polling.
Proof.
  intros Honce. unfold receive_iteration. rewrite Honce.
  destruct (ctx (trace s)); [done |]. cbn zeta.
  destruct (sqs.Err _); [done |].
  destruct (length _ =? 0)%nat; [done |].
  destruct (handleResponse _ _ _ _ _) as [[[] | v] s']; done.
Qed.

(** X9. In run-once mode the loop makes one iteration and no more,
    whatever the client answers and the handler does: giving it more
    iterations changes nothing, and it is never left polling. When every
    message received has an identifier, it has stopped; the only other
    way out is the panic on a missing identifier. *)
Theorem receive_RunOnce_stops (w : sqsWorker) (ctx : Context)
    (handler : HandlerFunc) (s : world) :
  RunOnce (Consumer (worker_cfg w)) = true →
  (∀ fuel, receive (S fuel) w ctx handler s = receive 1 w ctx handler s)
  ∧ fst (receive 1 w ctx handler s) ≠ Polling
  ∧ (Forall (λ m, is_Some (sqs.MessageId m))
       (sqs.Messages (worker_svc w (trace s)
                        (ReceiveMessageInput (worker_cfg w)))) →
     ∃ s', ∀ fuel, receive (S fuel) w ctx handler s = (Stopped, s')).
Proof.
  intros Honce.
  pose proof (receive_iteration_RunOnce w ctx handler s Honce) as Hne.
  assert (∀ fuel, receive (S fuel) w ctx handler s
                  = receive_iteration w ctx handler s) as Hone.
  { intros fuel. cbn [receive].
    destruct (receive_iteration w ctx handler s) as [[| | v] s']; done. }
  split; [intros fuel; by rewrite !Hone |].
  split; [by rewrite Hone |].
  intros Hids. setoid_rewrite Hone. clear Hone Hne.
  unfold receive_iteration. rewrite Honce.
  destruct (ctx (trace s)); [eauto |]. cbn zeta.
  change (trace (record _ s))
    with (trace s ++ [Sent (ReceiveMessageInput (worker_cfg w))]) in *.
  destruct (sqs.Err _); [eauto |].
  destruct (length _ =? 0)%nat; [eauto |].
  destruct (handleResponse_returns w ctx _ handler
              (count (receivedTotal_Add (Z.of_nat (length
                 (sqs.Messages (worker_svc w (trace s)
                    (ReceiveMessageInput (worker_cfg w)))))))
                 (record (Sent (ReceiveMessageInput (worker_cfg w))) s))
              Hids) as (s' & ->).
  eauto.
Qed.

Lemma receive_RunOnce_stops_witness :
  receive 4 {| worker_cfg := runOnceConfig;
               worker_svc := receiveClient message123 |}
    background idleHandler start
  = receive 1 {| worker_cfg := runOnceConfig;
                 worker_svc := receiveClient message123 |}
      background idleHandler start.
Proof.
  apply (proj1 (receive_RunOnce_stops
                  {| worker_cfg := runOnceConfig;
                     worker_svc := receiveClient message123 |}
                  background idleHandler start eq_refl)).
Defined.

Lemma receivedTotal_Add_0 (m : Metrics) : receivedTotal_Add 0 m = m.
Proof.
  destruct m. unfold receivedTotal_Add. cbn. f_equal. lia.
Qed.

Lemma receive_iteration_quiet (w : sqsWorker) (ctx : Context)
    (handler : HandlerFunc) (s : world) :
  RunOnce (Consumer (worker_cfg w)) = false →
  ctx (trace s) = false →
  worker_svc w (trace s) (ReceiveMessageInput (worker_cfg w))
  = {| sqs.Messages := []; sqs.Err := None |} →
  receive_iteration w ctx handler s
  = (Polling, {| trace := trace s ++ quiet_round (worker_cfg w);
                 metrics := metrics s |}).
Proof.
  intros Honce Hctx Hsvc. unfold receive_iteration, quiet_round.
  rewrite Hctx, Honce. cbn zeta.
  change (trace (record _ s))
    with (trace s ++ [Sent (ReceiveMessageInput (worker_cfg w))]).
  rewrite Hsvc. cbn [sqs.Err sqs.Messages length Nat.eqb Z.of_nat].
  unfold count, record. cbn [trace metrics]. rewrite receivedTotal_Add_0.
  destruct (RunSlowly (Consumer (worker_cfg w)) >? 0); cbn [trace metrics].
  - rewrite <- app_assoc. reflexivity.
  - reflexivity.
Qed.

(** X10. A loop in continuous mode whose receives succeed without any
    message: each iteration adds the receive request to the history and,
    in run-slowly mode, the pause; no handler runs and no counter moves.
    The context is looked at once per iteration, before the receive: when
    it is first found cancelled after [n] such rounds, the loop has
    stopped with exactly [n] receive requests sent, and with fewer
    iterations than that it is still polling. *)
Theorem receive_quiet_until_cancelled (w : sqsWorker) (ctx : Context)
    (handler : HandlerFunc) (n : nat) (s : world) :
  RunOnce (Consumer (worker_cfg w)) = false →
  (∀ h, worker_svc w h (ReceiveMessageInput (worker_cfg w))
        = {| sqs.Messages := []; sqs.Err := None |}) →
  (∀ k, (k < n)%nat →
        ctx (trace s ++ concat (replicate k (quiet_round (worker_cfg w))))
        = false) →
  ctx (trace s ++ concat (replicate n (quiet_round (worker_cfg w)))) = true →
  let stopped :=
    {| trace := trace s ++ concat (replicate n (quiet_round (worker_cfg w)));
       metrics := metrics s |} in
  (∀ fuel, (n < fuel)%nat → receive fuel w ctx handler s = (Stopped, stopped))
  ∧ (∀ fuel, (fuel ≤ n)%nat →
       receive fuel w ctx handler s
       = (Polling,
          {| trace := trace s
                      ++ concat (replicate fuel (quiet_round (worker_cfg w)));
             metrics := metrics s |})).
Proof.
  intros Honce Hsvc. revert s.
  induction n as [| n IH]; intros s Hbefore Hat.
  - cbn [replicate concat] in *. rewrite app_nil_r in *. split.
    + intros [| fuel] Hfuel; [lia |]. cbn [receive].
      unfold receive_iteration. rewrite Hat. by destruct s.
    + intros fuel Hfuel. assert (fuel = 0%nat) as -> by lia.
      cbn. rewrite app_nil_r. by destruct s.
  - assert (ctx (trace s) = false) as Hctx.
    { specialize (Hbefore 0%nat ltac:(lia)). cbn in Hbefore.
      by rewrite app_nil_r in Hbefore. }
    pose proof (receive_iteration_quiet w ctx handler s Honce Hctx (Hsvc _))
      as Hit.
    set (s1 := {| trace := trace s ++ quiet_round (worker_cfg w);
                  metrics := metrics s |}) in *.
    destruct (IH s1) as [IHstop IHpoll].
    { intros k Hk. specialize (Hbefore (S k) ltac:(lia)).
      cbn [replicate concat] in Hbefore. cbn [s1 trace].
      by rewrite <- app_assoc. }
    { cbn [replicate concat] in Hat. cbn [s1 trace].
      by rewrite <- app_assoc. }
    cbn [s1 trace metrics] in IHstop, IHpoll.
    split.
    + intros [| fuel] Hfuel; [lia |]. cbn [receive]. rewrite Hit.
      rewrite IHstop by lia. cbn [replicate concat].
      by rewrite <- !app_assoc.
    + intros [| fuel] Hfuel.
      * cbn. rewrite app_nil_r. by destruct s.
      * cbn [receive]. rewrite Hit. rewrite IHpoll by lia.
        cbn [replicate concat]. by rewrite <- !app_assoc.
Qed.

Lemma receive_quiet_until_cancelled_witness :
  receive 5 {| worker_cfg := defaultConfig; worker_svc := okClient |}
    (cancelledFrom 2) idleHandler start
  = (Stopped,
     {| trace := [] ++ concat (replicate 2 (quiet_round defaultConfig));
        metrics := noMetrics |}).
Proof.
  apply (proj1 (receive_quiet_until_cancelled
                  {| worker_cfg := defaultConfig; worker_svc := okClient |}
                  (cancelledFrom 2) idleHandler 2 start eq_refl
                  (fun _ => eq_refl)
                  (fun k Hk =>
                     match k as k0 return
                       (k0 < 2)%nat →
                       cancelledFrom 2
                         (trace start
                          ++ concat (replicate k0 (quiet_round defaultConfig)))
                       = false with
                     | 0%nat | 1%nat => fun _ => eq_refl
                     | S (S k') => fun H => ltac:(lia)
                     end Hk)
                  eq_refl)).
  lia.
Defined.

(** ** The counters over a batch *)

(** What one invocation adds to the three job counters, in any case; a
    handler that ends otherwise than by [panic(nil)] is counted at least
    once. *)
Lemma handle_bounds (ctx : Context) (handler : HandlerFunc) (j : sqsJob)
    (s : world) :
  let m := metrics s in
  let m' := metrics (handle ctx handler j s) in
  let dpanic := jobPanicTotal m' - jobPanicTotal m in
  let derror := jobErrorTotal m' - jobErrorTotal m in
  let dprocessed := jobProcessedTotal m' - jobProcessedTotal m in
  receiveErrorTotal m' = receiveErrorTotal m
  ∧ receivedTotal m' = receivedTotal m
  ∧ 0 ≤ dpanic ∧ 0 ≤ dprocessed ∧ dpanic ≤ derror
  ∧ dpanic + dprocessed ≤ 1
  ∧ derror + dprocessed ≤ 2
  ∧ ((handler ctx j (trace s)).1.1 ≠ Panicked None → 1 ≤ derror + dprocessed).
Proof.
  unfold handle.
  destruct (handler ctx j (trace s)) as [[[[e |] | [v |]] j'] tr];
    unfold Handled; try destruct (handled j'); cbn;
    repeat split; try lia; intros Hnil; try lia; by destruct Hnil.
Qed.

(** A handler made of calls of the job's methods never ends by
    [panic(nil)]. *)
Lemma handlerOf_not_nil_panic (m : Go (option error)) (ctx : Context)
    (j : sqsJob) (tr : list event) :
  (handlerOf m ctx j tr).1.1 ≠ Panicked None.
Proof.
  unfold handlerOf. by destruct (m j tr) as [[[e | v] j'] tr'].
Qed.

(** The dispatch of a batch does not touch the counters of the receive
    calls. *)
Lemma handleResponse_keeps_receive_counters (w : sqsWorker) (ctx : Context)
    (msgs : list sqs.Message) (handler : HandlerFunc) (s : world) :
  Forall (λ m, is_Some (sqs.MessageId m)) msgs →
  ∃ s', handleResponse w ctx msgs handler s = (Ret tt, s')
        ∧ receiveErrorTotal (metrics s') = receiveErrorTotal (metrics s)
        ∧ receivedTotal (metrics s') = receivedTotal (metrics s).
Proof.
  intros Hids. revert s.
  induction Hids as [| m rest [id Hid] _ IH]; intros s.
  - exists s. done.
  - cbn [handleResponse]. unfold ID. cbn [NewJob msg]. rewrite Hid.
    cbn [deref].
    pose proof (handle_bounds ctx handler
                  (NewJob (worker_cfg w) m (worker_svc w)) s)
      as (He & Hr & _).
    destruct (IH (handle ctx handler
                    (NewJob (worker_cfg w) m (worker_svc w)) s))
      as (s' & -> & He' & Hr').
    exists s'. split; [reflexivity |]. cbn zeta in *. split; congruence.
Qed.

(** X11. Over a batch of [n] messages that all have an identifier, the
    dispatch returns and the counters stay within the batch: each message
    adds at most two to the handler-error and processed counters together;
    panics and processed jobs together are at most [n]; every panic
    counted is also counted as a handler error; the counters of the
    receive calls are not touched. With a handler that never ends by
    [panic(nil)], every message is counted at least once, so none goes
    uncounted. *)
Theorem handleResponse_accounting (w : sqsWorker) (ctx : Context)
    (msgs : list sqs.Message) (handler : HandlerFunc) (s : world) :
  Forall (λ m, is_Some (sqs.MessageId m)) msgs →
  ∃ s', handleResponse w ctx msgs handler s = (Ret tt, s') ∧
    let n := Z.of_nat (length msgs) in
    let dpanic := jobPanicTotal (metrics s') - jobPanicTotal (metrics s) in
    let derror := jobErrorTotal (metrics s') - jobErrorTotal (metrics s) in
    let dprocessed :=
      jobProcessedTotal (metrics s') - jobProcessedTotal (metrics s) in
    receiveErrorTotal (metrics s') = receiveErrorTotal (metrics s)
    ∧ receivedTotal (metrics s') = receivedTotal (metrics s)
    ∧ 0 ≤ dpanic ∧ 0 ≤ dprocessed ∧ dpanic ≤ derror
    ∧ dpanic + dprocessed ≤ n
    ∧ derror + dprocessed ≤ 2 * n
    ∧ ((∀ j tr, (handler ctx j tr).1.1 ≠ Panicked None) →
       n ≤ derror + dprocessed).
Proof.
  intros Hids. revert s.
  induction Hids as [| m rest [id Hid] _ IH]; intros s.
  - exists s. split; [reflexivity |]. cbn. repeat split; lia.
  - cbn [handleResponse]. unfold ID. cbn [NewJob msg]. rewrite Hid.
    cbn [deref].
    pose proof (handle_bounds ctx handler
                  (NewJob (worker_cfg w) m (worker_svc w)) s) as Hone.
    destruct (IH (handle ctx handler
                    (NewJob (worker_cfg w) m (worker_svc w)) s))
      as (s' & -> & Hrest).
    exists s'. split; [reflexivity |].
    cbn zeta in *. rewrite length_cons, Nat2Z.inj_succ.
    destruct Hone as (? & ? & ? & ? & ? & ? & ? & Hlow1).
    destruct Hrest as (? & ? & ? & ? & ? & ? & ? & Hlow).
    repeat split; try lia.
    intros Hnever. specialize (Hlow Hnever). specialize (Hlow1 (Hnever _ _)).
    lia.
Qed.

Lemma handleResponse_accounting_witness :
  ∃ s', handleResponse {| worker_cfg := defaultConfig; worker_svc := okClient |}
          background [message123; binaryFooMessage] readingHandler start
        = (Ret tt, s')
        ∧ 2 ≤ jobErrorTotal (metrics s') - jobErrorTotal (metrics start)
              + (jobProcessedTotal (metrics s')
                 - jobProcessedTotal (metrics start)).
Proof.
  destruct (handleResponse_accounting
              {| worker_cfg := defaultConfig; worker_svc := okClient |}
              background [message123; binaryFooMessage] readingHandler start)
    as (s' & Hrun & _ & _ & _ & _ & _ & _ & _ & Hlow).
  - repeat constructor; eexists; reflexivity.
  - exists s'. split; [exact Hrun |].
    apply Hlow. intros j tr. apply handlerOf_not_nil_panic.
Defined.

(** ** A handler that deletes every job *)

Lemma handle_deleteHandler (ctx : Context) (c : Config) (m : sqs.Message)
    (svc0 : SQSAPI) (s : world) (id : string) :
  sqs.MessageId m = Some id →
  let req := sqs.DeleteMessage (QueueURL c) (sqs.ReceiptHandle m) in
  handle ctx deleteHandler (NewJob c m svc0) s
  = {| trace := trace s ++ [Sent req];
       metrics := match sqs.Err (svc0 (trace s) req) with
                  | None => jobProcessedTotal_Inc (metrics s)
                  | Some _ => jobErrorTotal_Inc (jobErrorTotal_Inc (metrics s))
                  end |}.
Proof.
  intros Hid req. unfold handle, deleteHandler, handlerOf.
  rewrite Delete_unfold. cbn [handled NewJob]. cbn zeta.
  unfold request_of. cbn [cfg msg svc NewJob]. fold req.
  destruct (sqs.Err (svc0 (trace s) req)); [reflexivity |].
  unfold ID. cbn [msg NewJob]. rewrite Hid. reflexivity.
Qed.

(** X12. With the handler [func(ctx, j) error { return j.Delete() }] on a
    batch of messages that all have an identifier, the requests sent are
    one delete per message, with the queue URL of the configuration and
    the receipt handle of the message (in some order: the goroutines of a
    batch are not ordered among themselves). When the
    client accepts every delete, every message is counted as processed and
    none as an error. When the client refuses every delete, every message
    is counted twice as a handler error, once for the error returned and
    once for the job left unhandled, and none as processed. *)
Theorem handleResponse_deleteHandler (w : sqsWorker) (ctx : Context)
    (msgs : list sqs.Message) (s : world) :
  Forall (λ m, is_Some (sqs.MessageId m)) msgs →
  let deletes :=
    map (λ m, Sent (sqs.DeleteMessage (QueueURL (worker_cfg w))
                      (sqs.ReceiptHandle m))) msgs in
  let n := Z.of_nat (length msgs) in
  ∃ s', handleResponse w ctx msgs deleteHandler s = (Ret tt, s')
        ∧ (∃ sent, trace s' = trace s ++ sent ∧ sent ≡ₚ deletes)
        ∧ jobPanicTotal (metrics s') = jobPanicTotal (metrics s)
        ∧ ((∀ h url rh,
              sqs.Err (worker_svc w h (sqs.DeleteMessage url rh)) = None) →
           jobProcessedTotal (metrics s') = jobProcessedTotal (metrics s) + n
           ∧ jobErrorTotal (metrics s') = jobErrorTotal (metrics s))
        ∧ ((∀ h url rh,
              sqs.Err (worker_svc w h (sqs.DeleteMessage url rh)) ≠ None) →
           jobProcessedTotal (metrics s') = jobProcessedTotal (metrics s)
           ∧ jobErrorTotal (metrics s') = jobErrorTotal (metrics s) + 2 * n).
Proof.
  intros Hids. cbn zeta. revert s.
  induction Hids as [| m rest [id Hid] _ IH]; intros s.
  - exists s. cbn. split; [done |].
    split; [exists []; by rewrite app_nil_r |].
    repeat split; lia.
  - cbn [handleResponse]. unfold ID. cbn [NewJob msg]. rewrite Hid.
    cbn [deref].
    rewrite (handle_deleteHandler ctx _ m _ s id Hid). cbn zeta.
    set (req := sqs.DeleteMessage (QueueURL (worker_cfg w))
                  (sqs.ReceiptHandle m)).
    destruct (IH {| trace := trace s ++ [Sent req];
                    metrics := match sqs.Err (worker_svc w (trace s) req) with
                               | None => jobProcessedTotal_Inc (metrics s)
                               | Some _ =>
                                   jobErrorTotal_Inc
                                     (jobErrorTotal_Inc (metrics s))
                               end |})
      as (s' & -> & (sent & Htr & Hperm) & Hp & Hok & Hfail).
    exists s'. split; [reflexivity |]. cbn [trace metrics] in *.
    rewrite length_cons, Nat2Z.inj_succ.
    split.
    { exists (Sent req :: sent). split.
      - rewrite Htr, <- app_assoc. reflexivity.
      - cbn [map]. by rewrite Hperm. }
    split; [rewrite Hp; by destruct (sqs.Err _) |].
    split.
    + intros Hall. destruct (Hok Hall) as [-> ->].
      assert (sqs.Err (worker_svc w (trace s) req) = None) as ->
        by apply Hall.
      cbn. lia.
    + intros Hall. destruct (Hfail Hall) as [-> ->].
      destruct (sqs.Err (worker_svc w (trace s) req)) eqn:He;
        [| by apply Hall in He].
      cbn. lia.
Qed.

Lemma handleResponse_deleteHandler_witness :
  ∃ s', handleResponse {| worker_cfg := defaultConfig; worker_svc := okClient |}
          background [message123; binaryFooMessage] deleteHandler start
        = (Ret tt, s')
        ∧ jobPanicTotal (metrics s') = jobPanicTotal (metrics start).
Proof.
  destruct (handleResponse_deleteHandler
              {| worker_cfg := defaultConfig; worker_svc := okClient |}
              background [message123; binaryFooMessage] start)
    as (s' & Hrun & _ & Hp & _).
  - repeat constructor; eexists; reflexivity.
  - exists s'. split; [exact Hrun | exact Hp].
Defined.

(** ** One iteration whose receive succeeds *)

(** X13. An iteration whose receive succeeds with [n] messages that all
    have an identifier: the received counter grows by [n] and the
    receive-error counter stays; the whole batch is dispatched and
    returns before anything else happens; in run-slowly mode the pause
    comes after it, as the last thing the iteration does; then the loop
    stops in run-once mode and polls again otherwise. *)
Theorem receive_iteration_success (w : sqsWorker) (ctx : Context)
    (handler : HandlerFunc) (s : world) :
  let c := Consumer (worker_cfg w) in
  let resp := worker_svc w (trace s) (ReceiveMessageInput (worker_cfg w)) in
  let n := Z.of_nat (length (sqs.Messages resp)) in
  ctx (trace s) = false →
  sqs.Err resp = None →
  Forall (λ m, is_Some (sqs.MessageId m)) (sqs.Messages resp) →
  ∃ s', receive_iteration w ctx handler s
        = (if RunOnce c then Stopped else Polling, s')
        ∧ receivedTotal (metrics s') = receivedTotal (metrics s) + n
        ∧ receiveErrorTotal (metrics s') = receiveErrorTotal (metrics s)
        ∧ ∃ s2, handleResponse w ctx (sqs.Messages resp) handler
                  (count (receivedTotal_Add n)
                     (record (Sent (ReceiveMessageInput (worker_cfg w))) s))
                = (Ret tt, s2)
                ∧ s' = if RunSlowly c >? 0
                       then record (Slept (RunSlowly c)) s2 else s2.
Proof.
  intros c resp n Hctx He Hids. unfold receive_iteration. rewrite Hctx.
  cbn zeta.
  change (trace (record _ s))
    with (trace s ++ [Sent (ReceiveMessageInput (worker_cfg w))]).
  fold resp. rewrite He. fold c.
  set (s1 := count (receivedTotal_Add (Z.of_nat (length (sqs.Messages resp))))
               (record (Sent (ReceiveMessageInput (worker_cfg w))) s)).
  assert (∃ s2, (if (length (sqs.Messages resp) =? 0)%nat
                 then (Ret (), s1)
                 else handleResponse w ctx (sqs.Messages resp) handler s1)
                = (Ret (), s2)
                ∧ handleResponse w ctx (sqs.Messages resp) handler s1
                  = (Ret (), s2)
                ∧ receivedTotal (metrics s2) = receivedTotal (metrics s) + n
                ∧ receiveErrorTotal (metrics s2) = receiveErrorTotal (metrics s))
    as (s2 & -> & Hbatch & Hrecv & Herr).
  { destruct (handleResponse_keeps_receive_counters w ctx _ handler s1 Hids)
      as (s2 & Hrun & Hb1 & Hb2).
    destruct (Nat.eqb_spec (length (sqs.Messages resp)) 0) as [Hz | Hnz].
    - apply nil_length_inv in Hz. rewrite Hz in Hrun. cbn in Hrun.
      injection Hrun as <-.
      exists s1. split; [reflexivity |]. rewrite Hz. split; [reflexivity |].
      subst n s1. rewrite Hz. cbn. lia.
    - exists s2. split; [exact Hrun |]. split; [exact Hrun |].
      rewrite Hb1, Hb2. subst n s1. cbn. lia. }
  exists (if RunSlowly c >? 0 then record (Slept (RunSlowly c)) s2 else s2).
  split; [by destruct (RunOnce c), (RunSlowly c >? 0) |].
  split; [by destruct (RunSlowly c >? 0) |].
  split; [by destruct (RunSlowly c >? 0) |].
  exists s2. split; [exact Hbatch | reflexivity].
Qed.

Lemma receive_iteration_success_witness :
  ∃ s', receive_iteration
          {| worker_cfg := runOnceConfig;
             worker_svc := receiveClient message123 |}
          background idleHandler start
        = (Stopped, s')
        ∧ receivedTotal (metrics s') = receivedTotal (metrics start) + 1.
Proof.
  destruct (receive_iteration_success
              {| worker_cfg := runOnceConfig;
                 worker_svc := receiveClient message123 |}
              background idleHandler start eq_refl eq_refl)
    as (s' & Hrun & Hrecv & _).
  - repeat constructor; eexists; reflexivity.
  - exists s'. split; [exact Hrun | exact Hrecv].
Defined.

(** ** The spot termination watcher *)

Section Watcher.
Context {T : Type} (time_Parse : string → string → option T).

Lemma pollEndpoint_step (g : spot.getResult) (rest : list spot.getResult)
    (i : nat) (d : list nat) :
  spot.pollEndpoint time_Parse (g :: rest) i d =
    let d' := match g with
              | spot.GetError _ => d
              | spot.GetResponse _ _ => i :: d
              end in
    match spot.announces time_Parse g with
    | Some t => Some {| spot.turn := i; spot.when := t; spot.closed := d' |}
    | None => spot.pollEndpoint time_Parse rest (S i) d'
    end.
Proof.
  destruct g as [e | code [b |]]; cbn [spot.pollEndpoint spot.announces];
    try reflexivity.
  - destruct (code =? spot.StatusOK); cbn [negb]; [| reflexivity].
    destruct (time_Parse _ b); reflexivity.
  - destruct (code =? spot.StatusOK); reflexivity.
Qed.

Lemma pollEndpoint_inv (gets : list spot.getResult) (i : nat) (d : list nat)
    (r : spot.notice T) :
  spot.pollEndpoint time_Parse gets i d = Some r →
  ∃ n g, spot.turn r = (i + n)%nat
         ∧ gets !! n = Some g
         ∧ spot.announces time_Parse g = Some (spot.when r)
         ∧ (∀ k g', (k < n)%nat → gets !! k = Some g' →
                    spot.announces time_Parse g' = None)
         ∧ spot.closed r
           = reverse (spot.response_turns i (take (S n) gets)) ++ d.
Proof.
  revert i d. induction gets as [| g rest IH]; intros i d H; [done |].
  rewrite pollEndpoint_step in H. cbn zeta in H.
  destruct (spot.announces time_Parse g) as [t |] eqn:Hg.
  - injection H as <-. exists 0%nat, g. cbn [spot.turn spot.when spot.closed].
    split; [lia |]. split; [done |]. split; [done |].
    split; [intros k g' Hk; lia |].
    destruct g as [e | code body]; [done |]. reflexivity.
  - destruct (IH _ _ H) as (n & g0 & Hturn & Hn & Ha & Hbefore & Hclosed).
    exists (S n), g0. split; [lia |]. split; [done |]. split; [done |].
    split.
    + intros [| k] g' Hk Hk'.
      * cbn in Hk'. by simplify_eq.
      * apply (Hbefore k g'); [lia | done].
    + rewrite Hclosed. cbn [take].
      destruct g as [e | code body]; cbn [spot.response_turns].
      * reflexivity.
      * rewrite reverse_cons, <- app_assoc. reflexivity.
Qed.

Lemma pollEndpoint_None (gets : list spot.getResult) (i : nat) (d : list nat) :
  spot.pollEndpoint time_Parse gets i d = None ↔
  Forall (λ g, spot.announces time_Parse g = None) gets.
Proof.
  revert i d. induction gets as [| g rest IH]; intros i d.
  - split; [constructor | done].
  - rewrite pollEndpoint_step. cbn zeta. rewrite Forall_cons.
    destruct (spot.announces time_Parse g) as [t |].
    + split; [done | intros [[=] _]].
    + rewrite IH. tauto.
Qed.

(** X14. The watcher closes its channel at the first turn at which the
    endpoint answers with status 200 and a body that reads and parses as a
    timestamp, and reports that timestamp; failed requests, other status
    codes (404 among them), unreadable bodies and bodies that do not parse
    only make it wait for the next tick. As long as no such answer has
    come it has not returned. *)
Theorem pollEndpoint_first_notice (gets : list spot.getResult) :
  (spot.pollEndpoint time_Parse gets 0 [] = None ↔
   Forall (λ g, spot.announces time_Parse g = None) gets)
  ∧ (∀ r, spot.pollEndpoint time_Parse gets 0 [] = Some r →
       ∃ g, gets !! spot.turn r = Some g
            ∧ spot.announces time_Parse g = Some (spot.when r)
            ∧ ∀ k g', (k < spot.turn r)%nat → gets !! k = Some g' →
                      spot.announces time_Parse g' = None).
Proof.
  split; [apply pollEndpoint_None |].
  intros r Hr.
  destruct (pollEndpoint_inv gets 0 [] r Hr)
    as (n & g & Hturn & Hn & Ha & Hbefore & _).
  cbn in Hturn. subst n. eauto.
Qed.

Lemma elem_of_response_turns (i : nat) (l : list spot.getResult) (k : nat) :
  k ∈ spot.response_turns i l ↔
  ∃ n code body, k = (i + n)%nat ∧ l !! n = Some (spot.GetResponse code body).
Proof.
  revert i. induction l as [| g rest IH]; intros i.
  - cbn. split; [by intros ?%elem_of_nil | by intros (n & ? & ? & _ & ?)].
  - destruct g as [e | code body]; cbn [spot.response_turns].
    + rewrite IH. split.
      * intros (n & c & b & -> & Hn). exists (S n), c, b. split; [lia | done].
      * intros ([| n] & c & b & -> & Hn); [done |].
        exists n, c, b. split; [lia | done].
    + rewrite elem_of_cons, IH. split.
      * intros [-> | (n & c & b & -> & Hn)].
        -- exists 0%nat, code, body. split; [lia | done].
        -- exists (S n), c, b. split; [lia | done].
      * intros ([| n] & c & b & -> & Hn).
        -- left. lia.
        -- right. exists n, c, b. split; [lia | done].
Qed.

(** X15. The bodies of the responses are closed by calls deferred inside
    the loop, so none is closed while the watcher is polling: when it
    returns, it closes the bodies of all the responses it has had up to
    that turn, and of no other turn, the last one first. *)
Theorem pollEndpoint_closes_at_return (gets : list spot.getResult)
    (r : spot.notice T) :
  spot.pollEndpoint time_Parse gets 0 [] = Some r →
  spot.closed r
  = reverse (spot.response_turns 0 (take (S (spot.turn r)) gets))
  ∧ (∀ k, k ∈ spot.closed r ↔
          (k ≤ spot.turn r)%nat
          ∧ ∃ code body, gets !! k = Some (spot.GetResponse code body))
  ∧ head (spot.closed r) = Some (spot.turn r).
Proof.
  intros Hr.
  destruct (pollEndpoint_inv gets 0 [] r Hr)
    as (n & g & Hturn & Hn & Ha & _ & Hclosed).
  cbn in Hturn. subst n. rewrite app_nil_r in Hclosed.
  split; [exact Hclosed |]. split.
  - intros k. rewrite Hclosed, elem_of_reverse, elem_of_response_turns.
    split.
    + intros (n & c & b & -> & Hk). cbn.
      apply lookup_take_Some in Hk as [Hk Hlt]. split; [lia | eauto].
    + intros (Hle & c & b & Hk). exists k, c, b. split; [done |].
      apply lookup_take_Some. split; [done | lia].
  - rewrite Hclosed.
    rewrite (take_S_r gets (spot.turn r) g Hn).
    destruct g as [e | code body]; [done |].
    assert (∀ i l c b,
              spot.response_turns i (l ++ [spot.GetResponse c b])
              = spot.response_turns i l ++ [(i + length l)%nat]) as Happ.
    { intros i l. revert i. induction l as [| [e | c' b'] l IHl]; intros i c b;
        cbn [spot.response_turns app length].
      - f_equal. lia.
      - rewrite IHl. do 2 f_equal. lia.
      - rewrite IHl. do 3 f_equal. lia. }
    rewrite Happ, reverse_app. cbn.
    rewrite length_take. f_equal.
    apply lookup_lt_Some in Hn. lia.
Qed.
End Watcher.

Lemma pollEndpoint_first_notice_witness :
  ∃ g, [spot.GetError (transportError "connection refused");
        spot.GetResponse 404 (Some ""%string);
        spot.GetResponse 200 (Some "soon"%string);
        spot.GetResponse 200 (Some "2018-03-01T12:00:00Z"%string);
        spot.GetResponse 200 (Some "2018-03-01T12:00:00Z"%string)] !! 3%nat
       = Some g
       ∧ spot.announces spot.parseOne g = Some 1519905600.
Proof.
  destruct (proj2 (pollEndpoint_first_notice spot.parseOne
              [spot.GetError (transportError "connection refused");
               spot.GetResponse 404 (Some ""%string);
               spot.GetResponse 200 (Some "soon"%string);
               spot.GetResponse 200 (Some "2018-03-01T12:00:00Z"%string);
               spot.GetResponse 200 (Some "2018-03-01T12:00:00Z"%string)])
              {| spot.turn := 3; spot.when := 1519905600;
                 spot.closed := [3; 2; 1]%nat |} eq_refl)
    as (g & Hg & Ha & _).
  exists g. split; [exact Hg | exact Ha].
Defined.

Lemma pollEndpoint_closes_at_return_witness :
  [3; 2; 1]%nat
  = reverse (spot.response_turns 0 (take 4
      [spot.GetError (transportError "connection refused");
       spot.GetResponse 404 (Some ""%string);
       spot.GetResponse 200 (Some "soon"%string);
       spot.GetResponse 200 (Some "2018-03-01T12:00:00Z"%string);
       spot.GetResponse 200 (Some "2018-03-01T12:00:00Z"%string)])).
Proof.
  apply (proj1 (pollEndpoint_closes_at_return spot.parseOne
           [spot.GetError (transportError "connection refused");
            spot.GetResponse 404 (Some ""%string);
            spot.GetResponse 200 (Some "soon"%string);
            spot.GetResponse 200 (Some "2018-03-01T12:00:00Z"%string);
            spot.GetResponse 200 (Some "2018-03-01T12:00:00Z"%string)]
           {| spot.turn := 3; spot.when := 1519905600;
              spot.closed := [3; 2; 1]%nat |} eq_refl)).
Defined.
